(** * STM32 project scaffolding script ([setup.py]): model and properties

  The script is orchestration glue: it reads a command from the command
  line and runs a fixed sequence of file-system operations, console
  interactions and external processes.  The embedding below follows the
  Python source function by function.

  - Text is [string], one [ascii] per character; files are opened in text
    mode, so what the program reads is the file's content with its line
    endings translated ([universal_newlines]).
  - Python exceptions deriving from [Exception] are the type [exn];
    every call that can raise returns a [result].
  - The operating system is an interface ([Host]): console, file system
    and process spawning are its operations, and each function of the
    script is a state-passing computation [Py W A] over a host state [W].
  - [MemHost] is an in-memory host used to run the script on concrete
    inputs. *)

From Stdlib Require Import Ascii ZArith.
From stdpp Require Import gmap strings list fin_maps.

#[global] Arguments String.append !_ _ / : simpl nomatch.

(** ** Text *)

Module Text.

Definition LF : ascii := "010"%char.
Definition CR : ascii := "013"%char.
Definition nl : string := String LF "".

(** [str.lower()] on the ASCII range: the letters A..Z go to a..z (no
    character outside that range lowercases to an ASCII letter other
    than k). *)
Definition lower_char (c : ascii) : ascii :=
  let n := nat_of_ascii c in
  if (65 <=? n)%nat && (n <=? 90)%nat then ascii_of_nat (n + 32) else c.

Fixpoint lower (s : string) : string :=
  match s with
  | EmptyString => EmptyString
  | String c s' => String (lower_char c) (lower s')
  end.

(** [s.split(sep)] for a one-character separator: consecutive separators
    give empty fields, and the empty string gives one empty field. *)
Fixpoint split (sep : ascii) (s : string) : list string :=
  match s with
  | EmptyString => [EmptyString]
  | String c s' =>
      if Ascii.eqb c sep then EmptyString :: split sep s'
      else match split sep s' with
           | [] => [String c EmptyString]
           | f :: fs => String c f :: fs
           end
  end.

(** Universal newlines, the default of [open(path, "r")]: on input the
    line endings CR LF and CR are both delivered as LF. *)
Fixpoint universal_newlines (s : string) : string :=
  match s with
  | EmptyString => EmptyString
  | String c s' =>
      if Ascii.eqb c CR then
        match s' with
        | String c' s'' =>
            if Ascii.eqb c' LF then String LF (universal_newlines s'')
            else String LF (universal_newlines s')
        | EmptyString => String LF EmptyString
        end
      else String c (universal_newlines s')
  end.

(** [file.readlines()] on already translated text: the text cut after
    every LF, each line keeping its terminator; a last line without
    terminator is kept as it is. *)
Fixpoint readlines (s : string) : list string :=
  match s with
  | EmptyString => []
  | String c s' =>
      if Ascii.eqb c LF then nl :: readlines s'
      else match readlines s' with
           | [] => [String c EmptyString]
           | l :: ls => String c l :: ls
           end
  end.

(** [file.writelines(lines)]: the lines one after the other, nothing
    added between them. *)
Definition writelines (lines : list string) : string :=
  String.concat "" lines.

(** Does the text contain the character? *)
Fixpoint has_char (c : ascii) (s : string) : bool :=
  match s with
  | EmptyString => false
  | String c' s' => Ascii.eqb c' c || has_char c s'
  end.

Definition startswith (l pre : string) : bool := String.prefix pre l.

End Text.

Import Text.

(** ** Exceptions and results *)

(** The exceptions the script can meet, all subclasses of Python's
    [Exception]; [OSError] stands for its whole family
    ([FileNotFoundError], [PermissionError], [IsADirectoryError], ...) and
    carries the message the operating system gives. *)
Inductive exn : Type :=
| OSError (msg : string)
| UnicodeError (msg : string)
| EOFError
| IndexError
| UnboundLocalError (name : string).

(** [str(e)], the text an f-string prints for the exception. *)
Definition exn_str (e : exn) : string :=
  match e with
  | OSError msg => msg
  | UnicodeError msg => msg
  | EOFError => ""
  | IndexError => "list index out of range"
  | UnboundLocalError name =>
      "cannot access local variable '" +:+ name +:+
      "' where it is not associated with a value"
  end.

Inductive result (A : Type) : Type :=
| Ok (a : A)
| Raise (e : exn).
Arguments Ok {A} a.
Arguments Raise {A} e.

(** ** Paths *)

(** A [pathlib.Path] is kept as the sequence of segments it was built from;
    resolving them is the host's business. *)
Definition path : Type := list string.

(** [p / segment] *)
Definition joinpath (p : path) (segment : string) : path := p ++ [segment].
Infix "</>" := joinpath (at level 40, left associativity).

(** [str(p)] *)
Definition path_str (p : path) : string := String.concat "/" p.

(** ** JSON values and [json.dumps] *)

#[local] Set Warnings "-register-all".

Definition dquote : ascii := "034"%char.
Definition backslash : ascii := "092"%char.

(** The text between double quotes. *)
Definition quoted (s : string) : string :=
  String dquote (s +:+ String dquote "").

(** The values the task descriptor is built from: [str], [list], [dict]
    (a dict keeps its keys in insertion order), and the constants. *)
Inductive json : Type :=
| JNull
| JBool (b : bool)
| JStr (s : string)
| JArr (items : list json)
| JObj (members : list (string * json)).

Definition hex_digit (n : nat) : ascii :=
  if (n <? 10)%nat then ascii_of_nat (48 + n) else ascii_of_nat (87 + n).

(** One character of a string as [json.dumps] writes it (with
    [ensure_ascii], the default): the quote and the backslash are escaped,
    and so is everything outside the printable ASCII range. *)
Definition escape_char (c : ascii) : string :=
  let n := nat_of_ascii c in
  if Ascii.eqb c dquote then String backslash (String dquote "")
  else if Ascii.eqb c backslash then String backslash (String backslash "")
  else if Ascii.eqb c LF then String backslash "n"
  else if Ascii.eqb c CR then String backslash "r"
  else if (n =? 9)%nat then String backslash "t"
  else if (n =? 8)%nat then String backslash "b"
  else if (n =? 12)%nat then String backslash "f"
  else if (32 <=? n)%nat && (n <=? 126)%nat then String c ""
  else String backslash
         ("u00" +:+ String (hex_digit (n / 16)) (String (hex_digit (n mod 16)) "")).

Fixpoint escape (s : string) : string :=
  match s with
  | EmptyString => EmptyString
  | String c s' => escape_char c +:+ escape s'
  end.

Definition encode_string (s : string) : string := quoted (escape s).

Fixpoint spaces (n : nat) : string :=
  match n with
  | O => EmptyString
  | S n' => String " " (spaces n')
  end.

(** A line break followed by the indentation of a nesting level. *)
Definition newline_indent (indent level : nat) : string :=
  nl +:+ spaces (indent * level).

(** [json.dumps(value, indent=indent)] at a nesting level: with an indent
    the items of a container come one per line, separated by a comma, and
    a key is separated from its value by a colon and a space. *)
Fixpoint json_encode (indent level : nat) (value : json) : string :=
  match value with
  | JNull => "null"
  | JBool true => "true"
  | JBool false => "false"
  | JStr s => encode_string s
  | JArr [] => "[]"
  | JArr items =>
      "[" +:+ newline_indent indent (S level) +:+
      String.concat ("," +:+ newline_indent indent (S level))
        (map (json_encode indent (S level)) items) +:+
      newline_indent indent level +:+ "]"
  | JObj [] => "{}"
  | JObj members =>
      "{" +:+ newline_indent indent (S level) +:+
      String.concat ("," +:+ newline_indent indent (S level))
        (map (λ member : string * json,
                encode_string member.1 +:+ ": " +:+
                json_encode indent (S level) member.2) members) +:+
      newline_indent indent level +:+ "}"
  end.

Definition json_dumps (indent : nat) (value : json) : string :=
  json_encode indent 0 value.

(** ** The host interface and the computations over it *)

(** What the script asks of the operating system.  Queries ([host_read],
    [host_exists], [host_is_dir], [host_iterdir]) look at the state; every
    other operation returns the state it leaves behind, also when it
    raises. *)
Class Host (W : Type) : Type := {
  (* print(text), on a standard output that does not fail *)
  host_print : string → W → W;
  (* a message written to standard error *)
  host_eprint : string → W → W;
  (* input(prompt): the line the operator types, without its newline *)
  host_input : string → W → result string * W;
  (* subprocess.run(argv, cwd=cwd) *)
  host_run : list string → option path → W → result unit * W;
  (* open(p, "r") and the whole content, before newline translation *)
  host_read : path → W → result string;
  (* open(p, "w"), the content written, close *)
  host_write : path → string → W → result unit * W;
  (* open(p, "a"), the text appended, close *)
  host_append : path → string → W → result unit * W;
  (* p.exists() *)
  host_exists : path → W → bool;
  (* p.is_dir() *)
  host_is_dir : path → W → bool;
  (* list(p.iterdir()) *)
  host_iterdir : path → W → result (list path);
  (* shutil.rmtree(p) *)
  host_rmtree : path → W → result unit * W;
  (* p.unlink() *)
  host_unlink : path → W → result unit * W;
  (* p.mkdir(parents=True, exist_ok=True) *)
  host_mkdir : path → W → result unit * W;
  (* shutil.copy(src, dst) *)
  host_copy : path → path → W → result unit * W;
  (* shutil.copytree(src, dst) *)
  host_copytree : path → path → W → result unit * W
}.

(** A computation of the script: it runs from a host state and returns a
    value or raises, leaving a host state. *)
Definition Py (W A : Type) : Type := W → result A * W.

#[global] Instance Py_ret {W} : MRet (Py W) := λ A a w, (Ok a, w).

#[global] Instance Py_bind {W} : MBind (Py W) := λ A B f m w,
  match m w with
  | (Ok a, w') => f a w'
  | (Raise e, w') => (Raise e, w')
  end.

Definition raise {W A} (e : exn) : Py W A := λ w, (Raise e, w).

(** [try: body except Exception as e: handler(e)] *)
Definition try_except {W A} (body : Py W A) (handler : exn → Py W A) : Py W A :=
  λ w, match body w with
       | (Ok a, w') => (Ok a, w')
       | (Raise e, w') => handler e w'
       end.

(** A pure step that may raise. *)
Definition lift {W A} (r : result A) : Py W A := λ w, (r, w).

(** A query of the host state. *)
Definition query {W A} (q : W → result A) : Py W A := λ w, (q w, w).

(** Reading a local variable: [None] is a name that was never assigned. *)
Definition local {W A} (name : string) (v : option A) : Py W A :=
  match v with
  | Some x => mret x
  | None => raise (UnboundLocalError name)
  end.

Section Script.

Context {W : Type} `{Host W}.

(** The directory the script is started in ([cwd = Path.cwd()]) and the
    script's own file ([__file__]). *)
Variable cwd : path.
Variable script_file : path.

Definition print (text : string) : Py W unit := λ w, (Ok tt, host_print text w).

(** [with open(p, "r") as file: lines = file.readlines()] *)
Definition open_readlines (p : path) : Py W (list string) :=
  raw ← query (host_read p);
  mret (readlines (universal_newlines raw)).

(** [with open(p, "w") as file: file.writelines(lines)]; on the platform
    the script is written for the line separator is LF, so the text goes
    out as it is. *)
Definition open_writelines (p : path) (lines : list string) : Py W unit :=
  host_write p (writelines lines).

(** *** run_command (source lines 12-14) *)
Definition run_command (cmd : string) (dir : option path) : Py W unit :=
  host_run (split " " cmd) dir.

(** *** update_cross_compile (source lines 17-55) *)

Definition cross_compile_line (new_path : string) : string :=
  "CROSS_COMPILE = " +:+ new_path +:+ nl.

(** The loop of lines 37-41 over the indices [range(len(lines))]: the
    first line starting with the key is overwritten in place and the loop
    is left; the result carries the flag [cross_compile_found]. *)
Fixpoint scan_lines (new_path : string) (indices : list nat)
    (lines : list string) : result (list string * bool) :=
  match indices with
  | [] => Ok (lines, false)
  | i :: rest =>
      match lines !! i with
      | None => Raise IndexError
      | Some line =>
          if startswith line "CROSS_COMPILE"
          then Ok (<[i := cross_compile_line new_path]> lines, true)
          else scan_lines new_path rest lines
      end
  end.

Definition update_cross_compile (makefile_path : path) (new_path : string)
    : Py W bool :=
  try_except
    (lines ← open_readlines makefile_path;
     scanned ← lift (scan_lines new_path (seq 0 (length lines)) lines);
     let '(lines, cross_compile_found) := scanned in
     let lines :=
       if negb cross_compile_found
       then lines ++ [nl +:+ cross_compile_line new_path]
       else lines in
     open_writelines makefile_path lines;;
     mret true)
    (λ e, print ("Error: " +:+ exn_str e);; mret false).

(** *** download_compiler (source lines 58-64) *)
Definition download_compiler (p : path) : Py W unit :=
  run_command
    "curl -o compiler.tar.bz2 https://armkeil.blob.core.windows.net/developer/Files/downloads/gnu-rm/10.3-2021.07/gcc-arm-none-eabi-10.3-2021.07-mac-10.14.6.tar.bz2"
    (Some p);;
  run_command "tar -xvf compiler.tar.bz2" (Some p).

(** *** install_compiler (source lines 78-84) *)
Definition install_compiler (p : path) : Py W unit :=
  let compiler := p </> "gcc-arm-none-eabi-10.3-2021.07" in
  present ← query (λ w, Ok (host_exists compiler w));
  if present : bool then print "Compiler already exists"
  else download_compiler p.

(** *** install_stlink (source lines 87-89) *)
Definition install_stlink : Py W unit :=
  run_command "brew install stlink" None.

(** *** get_micropython (source lines 92-105) *)
Definition get_micropython (p : path) : Py W unit :=
  run_command
    "git clone --recurse-submodules https://github.com/micropython/micropython.git"
    (Some p);;
  run_command "git checkout v1.22-release" (Some (p </> "micropython"));;
  run_command "git submodule update --init" (Some (p </> "micropython"));;
  run_command "mkdir modules" (Some (p </> "micropython/ports/stm32"));;
  let manifest := p </> "micropython/ports/stm32/boards/NUCLEO_H743ZI/manifest.py" in
  host_append manifest ("freeze(" +:+ quoted "$(PORT_DIR)/modules/app" +:+ ")").

(** *** compile_firmware (source lines 109-120) *)
Definition compile_firmware : Py W unit :=
  run_command "make -C mpy-cross" (Some (cwd </> "stm32/micropython"));;
  run_command "make submodules" (Some (cwd </> "stm32/micropython/ports/stm32"));;
  let app_path := cwd </> "stm32/micropython/ports/stm32/modules/app" in
  present ← query (λ w, Ok (host_exists app_path w));
  (if present : bool then host_rmtree app_path else mret tt);;
  host_copytree (cwd </> "app") app_path;;
  run_command "make BOARD=NUCLEO_H743ZI"
    (Some (cwd </> "stm32/micropython/ports/stm32")).

(** *** flash_firmware, reset_device, clean_build (source lines 123-138) *)
Definition flash_firmware : Py W unit :=
  run_command
    "st-flash --connect-under-reset --format ihex write build-NUCLEO_H743ZI/firmware.hex"
    (Some (cwd </> "stm32/micropython/ports/stm32")).

Definition reset_device : Py W unit :=
  run_command "st-flash --connect-under-reset reset" None.

Definition clean_build : Py W unit :=
  run_command "make clean" (Some (cwd </> "stm32/micropython/ports/stm32")).

(** *** setup_stm32_project (source lines 141-238) *)

(** The application stub of lines 179-185. *)
Definition app_stub : string :=
  nl +:+ "import pyb" +:+ nl +:+ nl +:+ "def run():" +:+ nl +:+
  "    print(" +:+ quoted "run function is runing" +:+ ")" +:+ nl +:+
  "    pyb.LED(1).on()" +:+ nl.

(** The dictionary of lines 206-231. *)
Definition task (label token : string) (extra : list (string * json)) : json :=
  JObj ([("label", JStr label); ("type", JStr "shell");
         ("command", JStr ("python3 stm32/setup.py " +:+ token))] ++ extra).

Definition tasks_content : json :=
  JObj [("version", JStr "2.0.0");
        ("tasks", JArr [task "Setup" "setup" [];
                        task "Compile" "compile" [];
                        task "Flash" "flash" [("dependsOn", JStr "Compile")];
                        task "Reset" "reset" []])].

(** The loop of lines 151-155 over the entries of the project directory. *)
Fixpoint delete_items (items : list path) : Py W unit :=
  match items with
  | [] => mret tt
  | item :: rest =>
      is_directory ← query (λ w, Ok (host_is_dir item w));
      (if is_directory : bool then host_rmtree item else host_unlink item);;
      delete_items rest
  end.

(** Lines 165-190 and 193: the directory tree, the application stub, the
    compiler and the firmware source. *)
Definition setup_tree_and_sources (project_path : path) : Py W unit :=
  let stm32_path := project_path </> "stm32" in
  let arm_gcc_compiler_path := stm32_path </> "arm_gcc_compiler" in
  let app_path := project_path </> "app" in
  let vscode_path := project_path </> ".vscode" in
  host_mkdir stm32_path;;
  host_mkdir arm_gcc_compiler_path;;
  host_mkdir app_path;;
  host_write (app_path </> "app.py") app_stub;;
  host_mkdir vscode_path;;
  install_compiler arm_gcc_compiler_path;;
  get_micropython stm32_path.

(** Lines 194-199: the two arguments are computed from the local variable
    [project_name], then the build configuration is edited; the boolean
    that comes back is dropped. *)
Definition setup_patch_makefile (project_name : option string) : Py W unit :=
  name1 ← local "project_name" project_name;
  let makefile := cwd </> name1 </> "stm32/micropython/ports/stm32/Makefile" in
  name2 ← local "project_name" project_name;
  let prefix :=
    cwd </> name2
        </> "stm32/arm_gcc_compiler/gcc-arm-none-eabi-10.3-2021.07/bin/arm-none-eabi-" in
  _ ← update_cross_compile makefile (path_str prefix);
  mret tt.

(** Lines 201-238: the copy of the script, the task descriptor, the
    flashing utility. *)
Definition setup_script_tasks_stlink (project_path : path) : Py W unit :=
  let stm32_path := project_path </> "stm32" in
  let vscode_tasks_path := project_path </> ".vscode" </> "tasks.json" in
  let setup_script_path := stm32_path </> "setup.py" in
  host_copy script_file setup_script_path;;
  print ("Setup script copied to " +:+ path_str setup_script_path);;
  host_write vscode_tasks_path (json_dumps 4 tasks_content);;
  print ("VSCode tasks.json created at " +:+ path_str vscode_tasks_path);;
  install_stlink;;
  print ("STM32 project setup completed at " +:+ path_str project_path).

(** Everything from line 165 on.  [project_name] is the local variable of
    that name: assigned on the branch without [delete_current] only. *)
Definition setup_provision (project_path : path) (project_name : option string)
    : Py W unit :=
  setup_tree_and_sources project_path;;
  setup_patch_makefile project_name;;
  setup_script_tasks_stlink project_path.

Definition setup_stm32_project (delete_current : bool) : Py W unit :=
  let project_path := cwd in
  if delete_current then
    answer ← host_input "Do you want to delete this project and recreate it? (y/n): ";
    let confirmation := lower answer in
    if String.eqb confirmation "y" then
      items ← query (host_iterdir project_path);
      delete_items items;;
      print "Deleted existing project content.";;
      setup_provision project_path None
    else
      print "Setup aborted."
  else
    project_name ← host_input "Enter the name of your new STM32 project: ";
    let project_path := cwd </> project_name in
    host_mkdir project_path;;
    setup_provision project_path (Some project_name).

(** *** main (source lines 241-274) *)

(** The texts [argparse] composes: the help of the main parser ([None])
    or of a sub-command, and what it writes to standard error for a given
    error message (the usage line, then the message). *)
Variable help_text : option string → string.
Variable error_text : string → string.

Definition subcommands : list string :=
  ["stlink"; "compiler"; "compile"; "flash"; "reset"; "get_mpy"; "clean"; "setup"].

Record namespace : Type := Namespace {
  command : option string;
  delete_current : bool
}.

(** How [parser.parse_args()] ends: with the parsed arguments, or by
    leaving the process after printing a help text (status 0) or an error
    (status 2). *)
Inductive parsed : Type :=
| Parsed (args : namespace)
| HelpExit (parser : option string)
| ErrorExit (message : string).

Definition is_option (token : string) : bool := startswith token "-".

(** The arguments after the sub-command name. Only [setup] declares an
    option of its own. Not modelled: abbreviated option names ([--delete]
    is taken by argparse for [--delete_current]) and a help option that
    follows an argument the parser does not know (argparse prints the
    help, here the unknown argument is reported). *)
Fixpoint parse_subcommand (name : string) (flag : bool) (rest : list string)
    : parsed :=
  match rest with
  | [] => Parsed (Namespace (Some name) flag)
  | token :: rest' =>
      if bool_decide (token = "-h") || bool_decide (token = "--help")
      then HelpExit (Some name)
      else if bool_decide (name = "setup") && bool_decide (token = "--delete_current")
      then parse_subcommand name true rest'
      else ErrorExit ("unrecognized arguments: " +:+ token)
  end.

(** The command line as the parser of lines 242-257 reads it: without any
    argument [command] is [None]; a first token that is not an option must
    be one of the sub-command names. *)
Definition parse_args (argv : list string) : parsed :=
  match argv with
  | [] => Parsed (Namespace None false)
  | token :: rest =>
      if is_option token then
        if bool_decide (token = "-h") || bool_decide (token = "--help")
        then HelpExit None
        else ErrorExit ("unrecognized arguments: " +:+ token)
      else if bool_decide (token ∈ subcommands)
      then parse_subcommand token false rest
      else ErrorExit ("argument command: invalid choice: " +:+ token)
  end.

(** How the process ends. *)
Inductive outcome : Type :=
| Returned
| Uncaught (e : exn)
| Exited (status : Z).

Definition exit_code (o : outcome) : Z :=
  match o with
  | Returned => 0
  | Uncaught _ => 1
  | Exited status => status
  end.

Definition command_mapping (args : namespace) : gmap string (Py W unit) :=
  list_to_map
    [("compiler", install_compiler (cwd </> "stm32" </> "arm_gcc_compiler"));
     ("get_mpy", get_micropython (cwd </> "stm32"));
     ("stlink", install_stlink);
     ("compile", compile_firmware);
     ("flash", flash_firmware);
     ("reset", reset_device);
     ("clean", clean_build);
     ("setup", setup_stm32_project (delete_current args))].

Definition main (argv : list string) (w : W) : outcome * W :=
  match parse_args argv with
  | HelpExit parser => (Exited 0, host_print (help_text parser) w)
  | ErrorExit message => (Exited 2, host_eprint (error_text message) w)
  | Parsed args =>
      match command args ≫= (command_mapping args !!.) with
      | Some action =>
          match action w with
          | (Ok _, w') => (Returned, w')
          | (Raise e, w') => (Uncaught e, w')
          end
      | None => (Returned, host_print (help_text None) w)
      end
  end.

End Script.

(** ** The edit over a console that can fail

    Everywhere above, [print] is [host_print], an operation that always
    returns.  Python's [print] writes to standard output and can raise
    there ([OSError] on a full device or a closed pipe,
    [UnicodeEncodeError] for a text the console cannot encode).  For the
    one place where that decides a property, the handler of
    [update_cross_compile] (line 54), the function and its caller are
    given again with the console's [print] as a computation that may
    raise; with [print] above for it they are the definitions above. *)

Section FallibleConsole.

Context {W : Type} `{Host W}.
Variable cwd : path.

(* print(text), on a standard output that may fail *)
Variable console_print : string → Py W unit.

(** *** update_cross_compile (source lines 17-55) *)
Definition update_cross_compile_with (makefile_path : path)
    (new_path : string) : Py W bool :=
  try_except
    (lines ← open_readlines makefile_path;
     scanned ← lift (scan_lines new_path (seq 0 (length lines)) lines);
     let '(lines, cross_compile_found) := scanned in
     let lines :=
       if negb cross_compile_found
       then lines ++ [nl +:+ cross_compile_line new_path]
       else lines in
     open_writelines makefile_path lines;;
     mret true)
    (λ e, console_print ("Error: " +:+ exn_str e);; mret false).

(** *** The call of lines 194-199 *)
Definition setup_patch_makefile_with (project_name : option string)
    : Py W unit :=
  name1 ← local "project_name" project_name;
  let makefile := cwd </> name1 </> "stm32/micropython/ports/stm32/Makefile" in
  name2 ← local "project_name" project_name;
  let prefix :=
    cwd </> name2
        </> "stm32/arm_gcc_compiler/gcc-arm-none-eabi-10.3-2021.07/bin/arm-none-eabi-" in
  _ ← update_cross_compile_with makefile (path_str prefix);
  mret tt.

End FallibleConsole.

(** ** Reading JSON back

    A reader for the JSON grammar restricted to the values of [json]
    (strings, arrays, objects and the three constants; no numbers).  A text
    it accepts is a JSON text, and the value it returns is the one the
    text denotes. *)

Module JsonReader.

Definition is_ws (c : ascii) : bool :=
  Ascii.eqb c " " || Ascii.eqb c LF || Ascii.eqb c CR || Ascii.eqb c "009".

Fixpoint skip_ws (s : string) : string :=
  match s with
  | String c s' => if is_ws c then skip_ws s' else s
  | EmptyString => EmptyString
  end.

Definition hex_value (c : ascii) : option nat :=
  let n := nat_of_ascii c in
  if (48 <=? n)%nat && (n <=? 57)%nat then Some (n - 48)
  else if (97 <=? n)%nat && (n <=? 102)%nat then Some (n - 87)
  else if (65 <=? n)%nat && (n <=? 70)%nat then Some (n - 55)
  else None.

(** The characters of a string literal after its opening quote, up to the
    closing quote; what follows the literal is returned with them. *)
Fixpoint read_string (s : string) : option (string * string) :=
  match s with
  | EmptyString => None
  | String c s' =>
      if Ascii.eqb c dquote then Some (EmptyString, s')
      else if Ascii.eqb c backslash then
        match s' with
        | String e s'' =>
            let simple (d : ascii) :=
              match read_string s'' with
              | Some (text, rest) => Some (String d text, rest)
              | None => None
              end in
            if Ascii.eqb e dquote then simple dquote
            else if Ascii.eqb e backslash then simple backslash
            else if Ascii.eqb e "/" then simple "/"%char
            else if Ascii.eqb e "n" then simple LF
            else if Ascii.eqb e "r" then simple CR
            else if Ascii.eqb e "t" then simple "009"%char
            else if Ascii.eqb e "b" then simple "008"%char
            else if Ascii.eqb e "f" then simple "012"%char
            else if Ascii.eqb e "u" then
              match s'' with
              | String "0" (String "0" (String h (String l s3))) =>
                  match hex_value h, hex_value l, read_string s3 with
                  | Some x, Some y, Some (text, rest) =>
                      Some (String (ascii_of_nat (16 * x + y)) text, rest)
                  | _, _, _ => None
                  end
              | _ => None
              end
            else None
        | EmptyString => None
        end
      else if (nat_of_ascii c <? 32)%nat then None
      else match read_string s' with
           | Some (text, rest) => Some (String c text, rest)
           | None => None
           end
  end.

(** Drops [word] from the front of [s]. *)
Fixpoint expect (word s : string) : option string :=
  match word, s with
  | EmptyString, _ => Some s
  | String a word', String b s' =>
      if Ascii.eqb a b then expect word' s' else None
  | String _ _, EmptyString => None
  end.

Fixpoint read_value (fuel : nat) (s : string) : option (json * string) :=
  match fuel with
  | O => None
  | S fuel' =>
      match skip_ws s with
      | EmptyString => None
      | String c rest =>
          if Ascii.eqb c dquote then
            match read_string rest with
            | Some (text, rest') => Some (JStr text, rest')
            | None => None
            end
          else if Ascii.eqb c "[" then
            match skip_ws rest with
            | String "]" rest' => Some (JArr [], rest')
            | _ => read_items fuel' rest []
            end
          else if Ascii.eqb c "{" then
            match skip_ws rest with
            | String "}" rest' => Some (JObj [], rest')
            | _ => read_members fuel' rest []
            end
          else if Ascii.eqb c "t" then
            rest' ← expect "rue" rest; Some (JBool true, rest')
          else if Ascii.eqb c "f" then
            rest' ← expect "alse" rest; Some (JBool false, rest')
          else if Ascii.eqb c "n" then
            rest' ← expect "ull" rest; Some (JNull, rest')
          else None
      end
  end
with read_items (fuel : nat) (s : string) (seen : list json)
    : option (json * string) :=
  match fuel with
  | O => None
  | S fuel' =>
      match read_value fuel' s with
      | Some (item, rest) =>
          match skip_ws rest with
          | String "," rest' => read_items fuel' rest' (item :: seen)
          | String "]" rest' => Some (JArr (rev (item :: seen)), rest')
          | _ => None
          end
      | None => None
      end
  end
with read_members (fuel : nat) (s : string) (seen : list (string * json))
    : option (json * string) :=
  match fuel with
  | O => None
  | S fuel' =>
      match skip_ws s with
      | String c rest =>
          if Ascii.eqb c dquote then
            match read_string rest with
            | Some (key, rest1) =>
                match skip_ws rest1 with
                | String ":" rest2 =>
                    match read_value fuel' rest2 with
                    | Some (item, rest3) =>
                        match skip_ws rest3 with
                        | String "," rest' =>
                            read_members fuel' rest' ((key, item) :: seen)
                        | String "}" rest' =>
                            Some (JObj (rev ((key, item) :: seen)), rest')
                        | _ => None
                        end
                    | None => None
                    end
                | _ => None
                end
            | None => None
            end
          else None
      | EmptyString => None
      end
  end.

(** [json.loads(text)]: one value, then nothing but white space. *)
Definition json_loads (text : string) : option json :=
  match read_value (S (String.length text)) text with
  | Some (value, rest) =>
      match skip_ws rest with
      | EmptyString => Some value
      | String _ _ => None
      end
  | None => None
  end.

End JsonReader.

(** What a task descriptor says, read off a JSON value. *)

Fixpoint lookup_member (key : string) (members : list (string * json))
    : option json :=
  match members with
  | [] => None
  | (k, v) :: rest => if String.eqb k key then Some v else lookup_member key rest
  end.

Definition member (key : string) (value : json) : option json :=
  match value with
  | JObj members => lookup_member key members
  | _ => None
  end.

Definition text_of (value : json) : option string :=
  match value with
  | JStr s => Some s
  | _ => None
  end.

Definition task_records (doc : json) : list json :=
  match member "tasks" doc with
  | Some (JArr records) => records
  | _ => []
  end.

Definition field (key : string) (record : json) : option string :=
  member key record ≫= text_of.

(** ** An in-memory host

    A small file tree, queues for the console and a record of the
    processes started.  It stands for the operating system when the script
    is run on a concrete input. *)

Module MemHost.

Inductive node : Type :=
| Dir
| File (content : string).

Record state : Type := State {
  (* the file tree, by resolved path; the root is always a directory *)
  fs : gmap (list string) node;
  (* the lines the operator will type *)
  stdin : list string;
  stdout : list string;
  stderr : list string;
  (* the processes started, oldest first *)
  spawned : list (list string * option path);
  (* what [git clone] brings, relative to the directory it runs in *)
  repository : list (list string * node)
}.

Definition with_fs (w : state) (tree : gmap (list string) node) : state :=
  State tree (stdin w) (stdout w) (stderr w) (spawned w) (repository w).

(** The components of a path: every segment cut at the slashes, empty
    components dropped. *)
Definition resolve (p : path) : list string :=
  filter (λ name, name ≠ "") (concat (map (split "/") p)).

Definition node_at (w : state) (p : list string) : option node :=
  match p with
  | [] => Some Dir
  | _ => fs w !! p
  end.

Definition parent (p : list string) : list string := removelast p.

Definition is_under (dir p : list string) : bool :=
  bool_decide (dir `prefix_of` p).

Definition print (text : string) (w : state) : state :=
  State (fs w) (stdin w) (stdout w ++ [text]) (stderr w) (spawned w)
        (repository w).

Definition eprint (text : string) (w : state) : state :=
  State (fs w) (stdin w) (stdout w) (stderr w ++ [text]) (spawned w)
        (repository w).

Definition input (prompt : string) (w : state) : result string * state :=
  match stdin w with
  | [] => (Raise EOFError, print prompt w)
  | line :: rest =>
      (Ok line,
       State (fs w) rest (stdout w ++ [prompt]) (stderr w) (spawned w)
             (repository w))
  end.

Definition read (p : path) (w : state) : result string :=
  match node_at w (resolve p) with
  | Some (File content) => Ok content
  | Some Dir => Raise (OSError "Is a directory")
  | None => Raise (OSError "No such file or directory")
  end.

Definition store (p : list string) (content : string) (w : state)
    : result unit * state :=
  match node_at w (parent p), node_at w p with
  | Some Dir, Some Dir => (Raise (OSError "Is a directory"), w)
  | Some Dir, _ => (Ok tt, with_fs w (<[p := File content]> (fs w)))
  | _, _ => (Raise (OSError "No such file or directory"), w)
  end.

Definition write (p : path) (content : string) (w : state)
    : result unit * state :=
  store (resolve p) content w.

Definition append (p : path) (text : string) (w : state)
    : result unit * state :=
  match node_at w (resolve p) with
  | Some (File content) => store (resolve p) (content +:+ text) w
  | _ => store (resolve p) text w
  end.

Definition exists_ (p : path) (w : state) : bool :=
  bool_decide (is_Some (node_at w (resolve p))).

Definition is_dir (p : path) (w : state) : bool :=
  match node_at w (resolve p) with
  | Some Dir => true
  | _ => false
  end.

Definition iterdir (p : path) (w : state) : result (list path) :=
  match node_at w (resolve p) with
  | Some Dir =>
      Ok (omap (λ entry : list string * node,
                  if bool_decide (entry.1 ≠ [] ∧ parent entry.1 = resolve p)
                  then Some (p </> List.last entry.1 "")
                  else None)
               (map_to_list (fs w)))
  | Some (File _) => Raise (OSError "Not a directory")
  | None => Raise (OSError "No such file or directory")
  end.

Definition rmtree (p : path) (w : state) : result unit * state :=
  match node_at w (resolve p) with
  | Some Dir =>
      (Ok tt,
       with_fs w (filter (λ entry, ¬ resolve p `prefix_of` entry.1) (fs w)))
  | Some (File _) => (Raise (OSError "Not a directory"), w)
  | None => (Raise (OSError "No such file or directory"), w)
  end.

Definition unlink (p : path) (w : state) : result unit * state :=
  match node_at w (resolve p) with
  | Some (File _) => (Ok tt, with_fs w (delete (resolve p) (fs w)))
  | Some Dir => (Raise (OSError "Is a directory"), w)
  | None => (Raise (OSError "No such file or directory"), w)
  end.

(** Makes the directories [take 1 p], [take 2 p], ... up to [p]. *)
Fixpoint make_dirs (done todo : list string) (w : state)
    : result unit * state :=
  match todo with
  | [] => (Ok tt, w)
  | name :: todo' =>
      let here := done ++ [name] in
      match node_at w here with
      | Some (File _) => (Raise (OSError "File exists"), w)
      | Some Dir => make_dirs here todo' w
      | None => make_dirs here todo' (with_fs w (<[here := Dir]> (fs w)))
      end
  end.

Definition mkdir (p : path) (w : state) : result unit * state :=
  make_dirs [] (resolve p) w.

Definition copy (src dst : path) (w : state) : result unit * state :=
  match read src w with
  | Ok content =>
      match node_at w (resolve dst) with
      | Some Dir => store (resolve dst ++ [List.last (resolve src) ""]) content w
      | _ => store (resolve dst) content w
      end
  | Raise e => (Raise e, w)
  end.

(** The entries under [src], re-rooted at [dst]. *)
Definition moved (src dst : list string) (w : state)
    : list (list string * node) :=
  omap (λ entry : list string * node,
          if is_under src entry.1
          then Some (dst ++ drop (length src) entry.1, entry.2)
          else None)
       (map_to_list (fs w)).

Definition copytree (src dst : path) (w : state) : result unit * state :=
  match node_at w (resolve src), node_at w (resolve dst) with
  | Some Dir, None =>
      (Ok tt,
       with_fs w (list_to_map (moved (resolve src) (resolve dst) w) ∪ fs w))
  | Some Dir, Some _ => (Raise (OSError "File exists"), w)
  | Some (File _), _ => (Raise (OSError "Not a directory"), w)
  | None, _ => (Raise (OSError "No such file or directory"), w)
  end.

(** Starting a process needs its working directory. Two programs act on
    the tree: [git clone] unpacks the repository, [mkdir] makes a
    directory; the others leave the tree alone. *)
Definition run (argv : list string) (dir : option path) (w : state)
    : result unit * state :=
  let here := resolve (default [] dir) in
  match node_at w here with
  | Some Dir =>
      let w' :=
        State (fs w) (stdin w) (stdout w) (stderr w)
              (spawned w ++ [(argv, dir)]) (repository w) in
      match argv with
      | "git" :: "clone" :: _ =>
          (Ok tt,
           with_fs w'
             (list_to_map (map (λ entry : list string * node,
                                  (here ++ entry.1, entry.2))
                               (repository w)) ∪ fs w))
      | ["mkdir"; name] =>
          (Ok tt, with_fs w' (<[here ++ [name] := Dir]> (fs w)))
      | _ => (Ok tt, w')
      end
  | _ => (Raise (OSError "No such file or directory"), w)
  end.

#[global] Instance host : Host state := {
  host_print := print;
  host_eprint := eprint;
  host_input := input;
  host_run := run;
  host_read := read;
  host_write := write;
  host_append := append;
  host_exists := exists_;
  host_is_dir := is_dir;
  host_iterdir := iterdir;
  host_rmtree := rmtree;
  host_unlink := unlink;
  host_mkdir := mkdir;
  host_copy := copy;
  host_copytree := copytree
}.

(** The directory the script is started in, and the script itself. *)
Definition cwd : path := ["work"].
Definition script_file : path := ["tools"; "setup.py"].

(** A firmware repository as [git clone] delivers it: the build
    configuration of the port and the manifest of the board. *)
Definition firmware (makefile : list (list string * node))
    : list (list string * node) :=
  [(["micropython"], Dir);
   (["micropython"; "ports"], Dir);
   (["micropython"; "ports"; "stm32"], Dir);
   (["micropython"; "ports"; "stm32"; "boards"], Dir);
   (["micropython"; "ports"; "stm32"; "boards"; "NUCLEO_H743ZI"], Dir);
   (["micropython"; "ports"; "stm32"; "boards"; "NUCLEO_H743ZI"; "manifest.py"],
    File ("include(" +:+ quoted "$(MPY_DIR)/extmod/asyncio" +:+ ")" +:+ nl))]
  ++ makefile.

Definition makefile_entry (content : string) : list (list string * node) :=
  [(["micropython"; "ports"; "stm32"; "Makefile"], File content)].

(** A working directory holding an older project, and an operator who
    will type the given lines. *)
Definition world (typed : list string) (repo : list (list string * node))
    : state :=
  State (list_to_map
           [(["work"], Dir);
            (["work"; "notes.txt"], File ("keep me" +:+ nl));
            (["work"; "old"], Dir);
            (["work"; "old"; "main.c"], File ("int main;" +:+ nl));
            (["tools"], Dir);
            (["tools"; "setup.py"], File ("import argparse" +:+ nl))])
        typed [] [] [] repo.

Definition help_text (parser : option string) : string :=
  match parser with
  | None => "usage: setup.py [-h] {stlink,compiler,compile,flash,reset,get_mpy,clean,setup} ..."
  | Some name => "usage: setup.py " +:+ name +:+ " [-h]"
  end.

Definition error_text (message : string) : string :=
  help_text None +:+ nl +:+ "setup.py: error: " +:+ message +:+ nl.

(** A directory holding nothing but a build configuration. *)
Definition makefile : path := cwd </> "Makefile".

Definition with_makefile (content : string) : state :=
  State (list_to_map [(["work"], Dir); (["work"; "Makefile"], File content)])
        [] [] [] [] [].

(** A project whose compiler is already unpacked. *)
Definition compiler_dir : path := cwd </> "stm32" </> "arm_gcc_compiler".

Definition installed : state :=
  State (list_to_map
           [(["work"], Dir);
            (["work"; "stm32"], Dir);
            (["work"; "stm32"; "arm_gcc_compiler"], Dir);
            (["work"; "stm32"; "arm_gcc_compiler";
              "gcc-arm-none-eabi-10.3-2021.07"], Dir)])
        [] [] [] [] [].

(** The firmware repository used in the runs below. *)
Definition micropython : list (list string * node) :=
  firmware (makefile_entry
              ("BOARD ?= PYBV10" +:+ nl +:+
               "CROSS_COMPILE ?= arm-none-eabi-" +:+ nl +:+
               "LD_DIR = boards" +:+ nl)).

(** File contents for the runs: one setting and no key line; the same
    kind of file with CR LF line endings and a key line; a file with two
    key lines and no terminator on its last line. *)
Definition plain : string := "A = 1" +:+ nl.

Definition crlf : string :=
  "A" +:+ String CR nl +:+ "CROSS_COMPILE = old" +:+ String CR nl.

Definition two_keys : string :=
  "A = 1" +:+ nl +:+ "CROSS_COMPILE = old" +:+ nl +:+ "CROSS_COMPILE_2 = x".

(** A value for the key that holds a line break. *)
Definition two_lines : string := "a" +:+ nl +:+ "b".

(** The older project once the operator has been asked and its entries
    deleted, and once only [notes.txt] has been deleted. *)
Definition after_deletion : state :=
  State (list_to_map
           [(["work"], Dir);
            (["tools"], Dir);
            (["tools"; "setup.py"], File ("import argparse" +:+ nl))])
        []
        ["Do you want to delete this project and recreate it? (y/n): "]
        [] [] micropython.

Definition without_notes : state :=
  State (list_to_map
           [(["work"], Dir);
            (["work"; "old"], Dir);
            (["work"; "old"; "main.c"], File ("int main;" +:+ nl));
            (["tools"], Dir);
            (["tools"; "setup.py"], File ("import argparse" +:+ nl))])
        [] [] [] [] micropython.

(** A standard output on a full device: every [print] raises. *)
Definition full_stdout (text : string) : Py state unit :=
  λ w, (Raise (OSError "No space left on device"), w).

End MemHost.

(** ** Vocabulary of the statements *)

(** A line with its terminator, and nothing of the kind before it. *)
Definition terminated (l : string) : Prop :=
  ∃ body, l = body +:+ nl ∧ has_char LF body = false.

(** The shape of what [readlines] returns: terminated lines, then
    possibly one last line without terminator. *)
Inductive lines_ok : list string → Prop :=
| lines_ok_nil : lines_ok []
| lines_ok_last l : l ≠ "" → has_char LF l = false → lines_ok [l]
| lines_ok_cons l ls : terminated l → lines_ok ls → lines_ok (l :: ls).

(** Is the last character of the line a line feed? *)
Fixpoint ends_with_lf (l : string) : bool :=
  match l with
  | EmptyString => false
  | String c EmptyString => Ascii.eqb c LF
  | String _ l' => ends_with_lf l'
  end.

(** The lines of a text once a line break is added at its end: the last
    line gets its terminator if it had none, otherwise an empty line
    follows. *)
Fixpoint snoc_nl (ls : list string) : list string :=
  match ls with
  | [] => [nl]
  | [l] => if ends_with_lf l then [l; nl] else [l +:+ nl]
  | l :: ls' => l :: snoc_nl ls'
  end.

(** A line that does not begin with the key. *)
Definition no_key (l : string) : Prop := startswith l "CROSS_COMPILE" = false.

(** The text [update_cross_compile] writes back for a file whose content
    is [raw] (the last branch is never taken: the indices of the loop are
    within the list). *)
Definition patched (new_path raw : string) : string :=
  let lines := readlines (universal_newlines raw) in
  match scan_lines new_path (seq 0 (length lines)) lines with
  | Ok (lines', true) => writelines lines'
  | Ok (lines', false) =>
      writelines (lines' ++ [nl +:+ cross_compile_line new_path])
  | Raise _ => ""
  end.

(** A file the host stores faithfully: whatever is written to it can be
    written, and is what a read returns afterwards. *)
Definition stores {W : Type} `{Host W} (p : path) (w : W) : Prop :=
  ∀ content, ∃ w', host_write p content w = (Ok tt, w') ∧
                   host_read p w' = Ok content.

(** A step that returns. *)
Definition succeeds {W A : Type} (r : result A * W) : Prop :=
  ∃ a w', r = (Ok a, w').

(** A host on which none of the state-changing operations raises, and
    every directory can be listed.  (Reading a file may still fail.) *)
Record obliging (W : Type) `{Host W} : Prop := Obliging {
  obliging_input : ∀ prompt w, succeeds (host_input prompt w);
  obliging_run : ∀ argv dir w, succeeds (host_run argv dir w);
  obliging_write : ∀ p content w, succeeds (host_write p content w);
  obliging_append : ∀ p text w, succeeds (host_append p text w);
  obliging_iterdir : ∀ p w, ∃ items, host_iterdir p w = Ok items;
  obliging_rmtree : ∀ p w, succeeds (host_rmtree p w);
  obliging_unlink : ∀ p w, succeeds (host_unlink p w);
  obliging_mkdir : ∀ p w, succeeds (host_mkdir p w);
  obliging_copy : ∀ src dst w, succeeds (host_copy src dst w);
  obliging_copytree : ∀ src dst w, succeeds (host_copytree src dst w)
}.

(** ** A recording host

    A host that keeps no files: every operation succeeds and is written
    down, nothing exists, nothing can be read.  The operator's answers
    are taken from a list (an empty line once the list is used up). *)

Module Recorder.

Inductive event : Type :=
| Printed (text : string)
| Warned (text : string)
| Asked (prompt : string)
| Started (argv : list string) (dir : option path)
| Written (p : path) (content : string)
| Appended (p : path) (text : string)
| Removed (p : path)
| Made (p : path)
| Copied (src dst : path).

Record state : Type := State {
  answers : list string;
  events : list event
}.

Definition record (e : event) (w : state) : state :=
  State (answers w) (events w ++ [e]).

Definition perform (e : event) (w : state) : result unit * state :=
  (Ok tt, record e w).

Definition input (prompt : string) (w : state) : result string * state :=
  (Ok (List.hd "" (answers w)),
   State (List.tl (answers w)) (events w ++ [Asked prompt])).

#[global] Instance host : Host state := {
  host_print text := record (Printed text);
  host_eprint text := record (Warned text);
  host_input := input;
  host_run argv dir := perform (Started argv dir);
  host_read _ _ := Raise (OSError "No such file or directory");
  host_write p content := perform (Written p content);
  host_append p text := perform (Appended p text);
  host_exists _ _ := false;
  host_is_dir _ _ := false;
  host_iterdir _ _ := Ok [];
  host_rmtree p := perform (Removed p);
  host_unlink p := perform (Removed p);
  host_mkdir p := perform (Made p);
  host_copy src dst := perform (Copied src dst);
  host_copytree src dst := perform (Copied src dst)
}.

(** An operator who will type the given lines. *)
Definition operator (typed : list string) : state := State typed [].

End Recorder.

(** * Properties *)

(** ** Text: lines and their joining *)

Section TextFacts.

Lemma append_nil_r (s : string) : s +:+ "" = s.
Proof. induction s as [|c s IH]; simpl; congruence. Qed.

Lemma append_assoc (s t u : string) : (s +:+ t) +:+ u = s +:+ t +:+ u.
Proof. induction s as [|c s IH]; simpl; congruence. Qed.

Lemma has_char_app (c : ascii) (s t : string) :
  has_char c (s +:+ t) = has_char c s || has_char c t.
Proof.
  induction s as [|d s IH]; simpl; [done|].
  by rewrite IH, orb_assoc.
Qed.

Lemma writelines_cons (l : string) (ls : list string) :
  writelines (l :: ls) = l +:+ writelines ls.
Proof.
  unfold writelines. destruct ls as [|l' ls]; simpl.
  - by rewrite append_nil_r.
  - done.
Qed.

Lemma writelines_app (a b : list string) :
  writelines (a ++ b) = writelines a +:+ writelines b.
Proof.
  induction a as [|l a IH]; [done|].
  change ((l :: a) ++ b) with (l :: (a ++ b)).
  by rewrite !writelines_cons, IH, append_assoc.
Qed.

(** Joining the lines that were read gives the text back. *)
Lemma writelines_readlines (s : string) : writelines (readlines s) = s.
Proof.
  induction s as [|c s IH]; [done|].
  simpl. destruct (Ascii.eqb c LF) eqn:E.
  - apply Ascii.eqb_eq in E as ->. by rewrite writelines_cons, IH.
  - destruct (readlines s) as [|l ls].
    + by rewrite <- IH.
    + rewrite writelines_cons in *. simpl. by rewrite IH.
Qed.

Lemma readlines_nil (s : string) : readlines s = [] → s = "".
Proof.
  destruct s as [|c s]; [done|]. simpl.
  destruct (Ascii.eqb c LF); [done|]. by destruct (readlines s).
Qed.

Lemma terminated_cons (c : ascii) (l : string) :
  Ascii.eqb c LF = false → terminated l → terminated (String c l).
Proof.
  intros E (body & -> & Hb). exists (String c body). split; [done|].
  simpl. by rewrite E.
Qed.

Lemma readlines_ok (s : string) : lines_ok (readlines s).
Proof.
  induction s as [|c s IH]; simpl; [constructor|].
  destruct (Ascii.eqb c LF) eqn:E.
  - apply lines_ok_cons; [|done]. by exists "".
  - destruct (readlines s) as [|l ls].
    + apply lines_ok_last; [done|]. simpl. by rewrite E.
    + inversion IH as [|l' Hne Hl|l' ls' Hl Hls]; subst.
      * apply lines_ok_last; [done|]. simpl. by rewrite E.
      * apply lines_ok_cons; [|done]. by apply terminated_cons.
Qed.

Lemma readlines_line (body rest : string) :
  has_char LF body = false →
  readlines (body +:+ String LF rest) = (body +:+ nl) :: readlines rest.
Proof.
  induction body as [|c body IH]; simpl; [done|].
  intros Hb. apply orb_false_iff in Hb as [E Hb].
  rewrite E. by rewrite IH.
Qed.

Lemma readlines_terminated (l rest : string) :
  terminated l → readlines (l +:+ rest) = l :: readlines rest.
Proof.
  intros (body & -> & Hb). rewrite append_assoc. by apply readlines_line.
Qed.

Lemma readlines_unterminated (l : string) :
  l ≠ "" → has_char LF l = false → readlines l = [l].
Proof.
  induction l as [|c l IH]; [done|]. intros _ Hl. simpl in *.
  apply orb_false_iff in Hl as [E Hl]. rewrite E.
  destruct l as [|d l]; [done|]. by rewrite IH.
Qed.

(** Reading back the lines that were written gives the same lines. *)
Lemma readlines_writelines (ls : list string) :
  lines_ok ls → readlines (writelines ls) = ls.
Proof.
  induction 1 as [|l Hne Hl|l ls Hl Hls IH]; [done| |].
  - rewrite writelines_cons. change (writelines []) with "".
    rewrite append_nil_r. by apply readlines_unterminated.
  - rewrite writelines_cons, readlines_terminated; [|done]. by rewrite IH.
Qed.

Lemma lines_ok_split (a : list string) (x : string) (b : list string) :
  lines_ok (a ++ x :: b) → Forall terminated a ∧ lines_ok (x :: b).
Proof.
  induction a as [|y a IH]; simpl; [by split|].
  intros Hok. inversion Hok as [|l Hne Hl Heq|l ls Hl Hls]; subst.
  - by destruct a.
  - destruct (IH Hls). split; [by constructor|done].
Qed.

Lemma lines_ok_tail (x : string) (b : list string) :
  lines_ok (x :: b) → lines_ok b.
Proof. inversion 1; subst; [constructor|done]. Qed.

Lemma lines_ok_join (a b : list string) :
  Forall terminated a → lines_ok b → lines_ok (a ++ b).
Proof.
  induction 1; simpl; [done|]. intros. apply lines_ok_cons; auto.
Qed.

End TextFacts.

Section NewlineFacts.

Lemma universal_newlines_no_cr_aux (s : string) :
  has_char CR (universal_newlines s) = false ∧
  ∀ c, has_char CR (universal_newlines (String c s)) = false.
Proof.
  induction s as [|d s [IH1 IH2]].
  - split; [done|]. intros c. simpl. by destruct (Ascii.eqb c CR) eqn:E; simpl; rewrite ?E.
  - split; [apply IH2|]. intros c.
    change (universal_newlines (String c (String d s))) with
      (if Ascii.eqb c CR
       then if Ascii.eqb d LF then String LF (universal_newlines s)
            else String LF (universal_newlines (String d s))
       else String c (universal_newlines (String d s))).
    destruct (Ascii.eqb c CR) eqn:E.
    + destruct (Ascii.eqb d LF); cbn [has_char]; [by rewrite IH1|by rewrite IH2].
    + cbn [has_char]. by rewrite E, IH2.
Qed.

(** Text read in universal-newlines mode has no carriage return left. *)
Lemma universal_newlines_no_cr (s : string) :
  has_char CR (universal_newlines s) = false.
Proof. apply universal_newlines_no_cr_aux. Qed.

(** Text without carriage return is read as it is. *)
Lemma universal_newlines_id (s : string) :
  has_char CR s = false → universal_newlines s = s.
Proof.
  induction s as [|c s IH]; [done|]. simpl.
  intros [E Hs]%orb_false_iff. rewrite E. by rewrite IH.
Qed.

Lemma ends_with_lf_cons (c : ascii) (l : string) :
  Ascii.eqb c LF = false → ends_with_lf (String c l) = ends_with_lf l.
Proof. intros E. destruct l; simpl; [done|done]. Qed.

Lemma readlines_snoc_nl (s : string) :
  readlines (s +:+ nl) = snoc_nl (readlines s).
Proof.
  induction s as [|c s IH]; [done|].
  simpl. destruct (Ascii.eqb c LF) eqn:E.
  - rewrite IH. destruct (readlines s); reflexivity.
  - rewrite IH. destruct (readlines s) as [|l [|l2 ls]];
      [simpl; by rewrite E| |reflexivity].
    cbn [snoc_nl]. rewrite (ends_with_lf_cons c l E).
    by destruct (ends_with_lf l).
Qed.

Lemma readlines_app_nl (a b : string) :
  readlines (a +:+ String LF b) = readlines (a +:+ nl) ++ readlines b.
Proof.
  induction a as [|c a IH]; [done|].
  simpl. destruct (Ascii.eqb c LF).
  - by rewrite IH.
  - rewrite IH. destruct (readlines (a +:+ nl)) as [|l ls] eqn:El; [|done].
    apply readlines_nil in El. by destruct a.
Qed.

End NewlineFacts.

Section KeyFacts.

Lemma prefix_app_lf (key l : string) :
  has_char LF key = false →
  String.prefix key (l +:+ nl) = true → String.prefix key l = true.
Proof.
  revert key. induction l as [|c l IH]; intros [|k key]; simpl; try done.
  - intros [E _]%orb_false_iff. destruct (ascii_dec k LF) as [->|]; [|done].
    by rewrite Ascii.eqb_refl in E.
  - intros [_ Hk]%orb_false_iff. destruct (ascii_dec k c); [|done]. by apply IH.
Qed.

Lemma no_key_app_nl (l : string) : no_key l → no_key (l +:+ nl).
Proof.
  unfold no_key, startswith. intros Hl.
  destruct (String.prefix "CROSS_COMPILE" (l +:+ nl)) eqn:E; [|done].
  apply prefix_app_lf in E; [congruence|done].
Qed.

Lemma no_key_snoc_nl (ls : list string) :
  Forall no_key ls → Forall no_key (snoc_nl ls).
Proof.
  induction 1 as [|l ls Hl Hls IH]; [by repeat constructor|].
  destruct ls as [|l2 ls].
  - simpl. destruct (ends_with_lf l); repeat constructor; auto using no_key_app_nl.
  - change (snoc_nl (l :: l2 :: ls)) with (l :: snoc_nl (l2 :: ls)). by constructor.
Qed.

Lemma key_cross_compile_line (new_path : string) :
  startswith (cross_compile_line new_path) "CROSS_COMPILE" = true.
Proof. reflexivity. Qed.

(** The lines either hold no key line, or split at the first one. *)
Lemma first_key_line (ls : list string) :
  Forall no_key ls ∨
  ∃ pre l post, ls = pre ++ l :: post ∧ Forall no_key pre ∧
                startswith l "CROSS_COMPILE" = true.
Proof.
  induction ls as [|x ls IH]; [by left|].
  destruct (startswith x "CROSS_COMPILE") eqn:E.
  - right. by exists [], x, ls.
  - destruct IH as [IH|(pre & l & post & -> & Hpre & Hl)].
    + left. by constructor.
    + right. exists (x :: pre), l, post. repeat split; [|done]. by constructor.
Qed.

Lemma scan_lines_none (new_path : string) (seen rest : list string) :
  Forall no_key rest →
  scan_lines new_path (seq (length seen) (length rest)) (seen ++ rest) =
  Ok (seen ++ rest, false).
Proof.
  revert seen. induction rest as [|x rest IH]; intros seen Hrest; [done|].
  inversion Hrest as [|? ? Hx Hrest']; subst.
  cbn [length seq scan_lines]. rewrite list_lookup_middle by done.
  rewrite Hx. specialize (IH (seen ++ [x]) Hrest').
  rewrite length_app, <- app_assoc in IH. simpl in IH.
  by rewrite Nat.add_1_r in IH.
Qed.

Lemma scan_lines_found (new_path : string) (seen pre : list string)
    (l : string) (post : list string) :
  Forall no_key pre → startswith l "CROSS_COMPILE" = true →
  scan_lines new_path (seq (length seen) (length (pre ++ l :: post)))
    (seen ++ pre ++ l :: post) =
  Ok (seen ++ pre ++ cross_compile_line new_path :: post, true).
Proof.
  intros Hpre Hl. revert seen.
  induction Hpre as [|x pre Hx Hpre IH]; intros seen.
  - cbn [app length seq scan_lines]. rewrite list_lookup_middle by done.
    rewrite Hl. do 2 f_equal.
    replace (length seen) with (length seen + 0) by lia.
    by rewrite insert_app_r.
  - cbn [app length seq scan_lines]. rewrite list_lookup_middle by done.
    rewrite Hx. specialize (IH (seen ++ [x])).
    rewrite length_app, <- !app_assoc in IH. simpl in IH.
    by rewrite Nat.add_1_r in IH.
Qed.

End KeyFacts.

(** ** The edit of the build configuration *)

Section PatchedFacts.

Lemma scan_lines_all_none (new_path : string) (lines : list string) :
  Forall no_key lines →
  scan_lines new_path (seq 0 (length lines)) lines = Ok (lines, false).
Proof. apply (scan_lines_none new_path []). Qed.

Lemma scan_lines_first (new_path : string) (pre : list string) (l : string)
    (post : list string) :
  Forall no_key pre → startswith l "CROSS_COMPILE" = true →
  scan_lines new_path (seq 0 (length (pre ++ l :: post))) (pre ++ l :: post) =
  Ok (pre ++ cross_compile_line new_path :: post, true).
Proof. apply (scan_lines_found new_path []). Qed.

Lemma patched_found (new_path raw : string) (pre : list string) (l : string)
    (post : list string) :
  readlines (universal_newlines raw) = pre ++ l :: post →
  Forall no_key pre → startswith l "CROSS_COMPILE" = true →
  patched new_path raw =
  writelines pre +:+ cross_compile_line new_path +:+ writelines post.
Proof.
  intros Hlines Hpre Hl. unfold patched. rewrite Hlines.
  rewrite (scan_lines_first new_path pre l post Hpre Hl).
  by rewrite writelines_app, writelines_cons.
Qed.

Lemma patched_none (new_path raw : string) :
  Forall no_key (readlines (universal_newlines raw)) →
  patched new_path raw =
  universal_newlines raw +:+ nl +:+ cross_compile_line new_path.
Proof.
  intros Hlines. unfold patched.
  rewrite (scan_lines_all_none new_path _ Hlines).
  rewrite writelines_app, writelines_readlines.
  by rewrite writelines_cons, append_nil_r.
Qed.

Lemma has_char_cross_compile_line (c : ascii) (new_path : string) :
  Ascii.eqb c LF = false → has_char c "CROSS_COMPILE = " = false →
  has_char c new_path = false →
  has_char c (cross_compile_line new_path) = false.
Proof.
  intros E Hk Hp. unfold cross_compile_line.
  rewrite !has_char_app, Hk, Hp. unfold nl. cbn [has_char].
  by rewrite (Ascii.eqb_sym LF c), E.
Qed.

Lemma terminated_cross_compile_line (new_path : string) :
  has_char LF new_path = false → terminated (cross_compile_line new_path).
Proof.
  intros Hp. exists ("CROSS_COMPILE = " +:+ new_path). split.
  - unfold cross_compile_line. by rewrite append_assoc.
  - by rewrite has_char_app, Hp.
Qed.

(** With a value free of line breaks the edited text is left as it is by
    a second edit. *)
Lemma patched_idempotent (new_path raw : string) :
  has_char LF new_path = false → has_char CR new_path = false →
  patched new_path (patched new_path raw) = patched new_path raw.
Proof.
  intros Hlf Hcr.
  pose proof (universal_newlines_no_cr raw) as Hraw.
  pose proof (readlines_ok (universal_newlines raw)) as Hok.
  pose proof (writelines_readlines (universal_newlines raw)) as Hjoin.
  assert (Hkcr : has_char CR (cross_compile_line new_path) = false)
    by (by apply has_char_cross_compile_line).
  destruct (first_key_line (readlines (universal_newlines raw)))
    as [Hnone|(pre & l & post & Hlines & Hpre & Hl)].
  - rewrite (patched_none new_path raw Hnone).
    set (text := universal_newlines raw +:+ nl +:+ cross_compile_line new_path).
    assert (Hid : universal_newlines text = text).
    { apply universal_newlines_id. unfold text.
      by rewrite !has_char_app, Hraw, Hkcr. }
    assert (Hread : readlines text =
              snoc_nl (readlines (universal_newlines raw)) ++
              [cross_compile_line new_path]).
    { unfold text. change (nl +:+ cross_compile_line new_path)
        with (String LF (cross_compile_line new_path)).
      rewrite readlines_app_nl, readlines_snoc_nl. f_equal.
      pose proof (readlines_terminated (cross_compile_line new_path) ""
                    (terminated_cross_compile_line new_path Hlf)) as Hk.
      by rewrite append_nil_r in Hk. }
    rewrite (patched_found new_path text
               (snoc_nl (readlines (universal_newlines raw)))
               (cross_compile_line new_path) []).
    + rewrite <- writelines_cons, <- writelines_app, <- Hread.
      apply writelines_readlines.
    + by rewrite Hid.
    + by apply no_key_snoc_nl.
    + apply key_cross_compile_line.
  - rewrite (patched_found new_path raw pre l post Hlines Hpre Hl).
    set (text := writelines pre +:+ cross_compile_line new_path +:+ writelines post).
    rewrite Hlines in Hok, Hjoin.
    apply lines_ok_split in Hok as [Hterm Hrest].
    rewrite writelines_app, writelines_cons in Hjoin.
    rewrite <- Hjoin, !has_char_app in Hraw.
    apply orb_false_iff in Hraw as [Hcpre [_ Hcpost]%orb_false_iff].
    assert (Hid : universal_newlines text = text).
    { apply universal_newlines_id. unfold text.
      by rewrite !has_char_app, Hcpre, Hkcr, Hcpost. }
    assert (Hread : readlines text = pre ++ cross_compile_line new_path :: post).
    { unfold text. rewrite <- writelines_cons, <- writelines_app.
      apply readlines_writelines, lines_ok_join; [done|].
      apply lines_ok_cons; [by apply terminated_cross_compile_line|].
      by apply lines_ok_tail in Hrest. }
    apply (patched_found new_path text pre (cross_compile_line new_path) post).
    + by rewrite Hid.
    + done.
    + apply key_cross_compile_line.
Qed.

End PatchedFacts.

Section EditFacts.

Context {W : Type} `{Host W}.

(** What the function does once the file has been read: one write of the
    patched text, reported by the boolean. *)
Lemma update_cross_compile_read_ok (p : path) (new_path raw : string) (w : W) :
  host_read p w = Ok raw →
  update_cross_compile p new_path w =
  match host_write p (patched new_path raw) w with
  | (Ok _, w') => (Ok true, w')
  | (Raise e, w') => (Ok false, host_print ("Error: " +:+ exn_str e) w')
  end.
Proof.
  intros Hread.
  unfold update_cross_compile, try_except, open_readlines, open_writelines,
    query, lift, print, patched, mbind, Py_bind, mret, Py_ret.
  rewrite Hread.
  destruct (first_key_line (readlines (universal_newlines raw)))
    as [Hnone|(pre & l & post & Hlines & Hpre & Hl)].
  - rewrite (scan_lines_all_none new_path _ Hnone). cbn [negb].
    by destruct (host_write _ _ w) as [[[]|e] w'].
  - rewrite Hlines, (scan_lines_first new_path pre l post Hpre Hl).
    cbn [negb].
    by destruct (host_write _ _ w) as [[[]|e] w'].
Qed.

Lemma update_cross_compile_read_fails (p : path) (new_path : string) (e : exn)
    (w : W) :
  host_read p w = Raise e →
  update_cross_compile p new_path w =
  (Ok false, host_print ("Error: " +:+ exn_str e) w).
Proof.
  intros Hread.
  unfold update_cross_compile, try_except, open_readlines, query, print,
    mbind, Py_bind, mret, Py_ret.
  by rewrite Hread.
Qed.

End EditFacts.

Section EditClaims.

Context {W : Type} `{Host W}.

(** C3 (amended). For a configuration file in which no line begins with
    [CROSS_COMPILE], [update_cross_compile] writes back the text it read
    followed by a line break and then the one line
    [CROSS_COMPILE = new_path]; the text it read is the file's content
    with every CR LF and CR delivered as LF, hence the original content
    itself when the file holds no carriage return.  So the new line is
    preceded by a line break that was not in the file. *)
Theorem update_cross_compile_appends (p : path) (new_path raw : string) (w : W) :
  host_read p w = Ok raw →
  Forall no_key (readlines (universal_newlines raw)) →
  (has_char CR raw = false → universal_newlines raw = raw) ∧
  match host_write p
          (universal_newlines raw +:+ nl +:+ cross_compile_line new_path) w with
  | (Ok _, w') => update_cross_compile p new_path w = (Ok true, w')
  | (Raise e, w') =>
      update_cross_compile p new_path w =
      (Ok false, host_print ("Error: " +:+ exn_str e) w')
  end.
Proof.
  intros Hread Hnone. split; [apply universal_newlines_id|].
  rewrite (update_cross_compile_read_ok p new_path raw w Hread).
  rewrite (patched_none new_path raw Hnone).
  by destruct (host_write _ _ w) as [[[]|e] w'].
Qed.

(** C4 (amended). For a configuration file whose lines, as read in text
    mode, are [pre], then a first line [l] beginning with [CROSS_COMPILE],
    then [post], [update_cross_compile] writes back [pre], the line
    [CROSS_COMPILE = new_path], and [post]: every line other than [l] is
    written as it was read, later key lines included.  What was read is the
    file's content with every CR LF and CR delivered as LF, hence the
    original bytes when the file holds no carriage return. *)
Theorem update_cross_compile_rewrites_first (p : path) (new_path raw : string)
    (pre : list string) (l : string) (post : list string) (w : W) :
  host_read p w = Ok raw →
  readlines (universal_newlines raw) = pre ++ l :: post →
  Forall no_key pre →
  startswith l "CROSS_COMPILE" = true →
  universal_newlines raw = writelines pre +:+ l +:+ writelines post ∧
  (has_char CR raw = false → universal_newlines raw = raw) ∧
  match host_write p
          (writelines pre +:+ cross_compile_line new_path +:+ writelines post)
          w with
  | (Ok _, w') => update_cross_compile p new_path w = (Ok true, w')
  | (Raise e, w') =>
      update_cross_compile p new_path w =
      (Ok false, host_print ("Error: " +:+ exn_str e) w')
  end.
Proof.
  intros Hread Hlines Hpre Hl. split; [|split].
  - rewrite <- (writelines_readlines (universal_newlines raw)), Hlines.
    by rewrite writelines_app, writelines_cons.
  - apply universal_newlines_id.
  - rewrite (update_cross_compile_read_ok p new_path raw w Hread).
    rewrite (patched_found new_path raw pre l post Hlines Hpre Hl).
    by destruct (host_write _ _ w) as [[[]|e] w'].
Qed.

(** C9 (amended). For a readable and writable configuration file and a
    [new_path] holding no line break (neither LF nor CR), applying the
    edit twice leaves the file with the content one application gives. *)
Theorem update_cross_compile_idempotent (p : path) (new_path raw : string)
    (w : W) :
  has_char LF new_path = false →
  has_char CR new_path = false →
  host_read p w = Ok raw →
  stores p w →
  (∀ content w', host_write p content w = (Ok tt, w') → stores p w') →
  ∃ w1 w2,
    update_cross_compile p new_path w = (Ok true, w1) ∧
    update_cross_compile p new_path w1 = (Ok true, w2) ∧
    host_read p w2 = host_read p w1.
Proof.
  intros Hlf Hcr Hread Hstores Hkeeps.
  destruct (Hstores (patched new_path raw)) as (w1 & Hw1 & Hr1).
  destruct (Hkeeps _ _ Hw1 (patched new_path (patched new_path raw)))
    as (w2 & Hw2 & Hr2).
  exists w1, w2. repeat split.
  - by rewrite (update_cross_compile_read_ok p new_path raw w Hread), Hw1.
  - by rewrite (update_cross_compile_read_ok p new_path _ w1 Hr1), Hw2.
  - by rewrite Hr1, Hr2, patched_idempotent.
Qed.

End EditClaims.

(** ** The confirmation prompt *)

Section AnswerFacts.

Lemma lower_char_y (c : ascii) :
  lower_char c = "y"%char ↔ c = "y"%char ∨ c = "Y"%char.
Proof.
  split.
  - destruct c as [[] [] [] [] [] [] [] []]; vm_compute; intros; try discriminate; auto.
  - by intros [->| ->].
Qed.

Lemma lower_y (answer : string) :
  lower answer = "y" ↔ answer = "y" ∨ answer = "Y".
Proof.
  split.
  - destruct answer as [|c [|d rest]]; simpl; try discriminate.
    intros [= Hc]. apply lower_char_y in Hc as [->| ->]; auto.
  - by intros [->| ->].
Qed.

End AnswerFacts.

(** ** The commands *)

Section CommandClaims.

Context {W : Type} `{Host W}.
Variable cwd : path.
Variable script_file : path.
Variable help_text : option string → string.
Variable error_text : string → string.

Ltac run_steps :=
  unfold local, raise, query, print; unfold mbind, Py_bind, mret, Py_ret.

(** C5. When the directory [gcc-arm-none-eabi-10.3-2021.07] exists under
    the given path, [install_compiler] starts no process (no download, no
    extraction): it returns normally and the state it leaves is the one
    it found with the message printed. *)
Theorem install_compiler_present (p : path) (w : W) :
  host_exists (p </> "gcc-arm-none-eabi-10.3-2021.07") w = true →
  install_compiler p w = (Ok tt, host_print "Compiler already exists" w).
Proof.
  intros Hexists. unfold install_compiler. run_steps. by rewrite Hexists.
Qed.

(** C6. When the operator answers the confirmation prompt of
    [setup --delete_current] with anything but [y] or [Y], the function
    prints [Setup aborted.] and returns: the state it leaves is the one
    after the prompt with that message printed, nothing was deleted,
    created or written. *)
Theorem setup_declined (answer : string) (w w1 : W) :
  host_input "Do you want to delete this project and recreate it? (y/n): " w
    = (Ok answer, w1) →
  answer ≠ "y" → answer ≠ "Y" →
  setup_stm32_project cwd script_file true w =
  (Ok tt, host_print "Setup aborted." w1).
Proof.
  intros Hinput Hy HY. unfold setup_stm32_project. run_steps.
  rewrite Hinput.
  destruct (String.eqb_spec (lower answer) "y") as [Hlow|Hlow]; [|done].
  apply lower_y in Hlow as [?|?]; congruence.
Qed.

(** C10. The confirmation check lowercases the answer and compares it
    with [y]: the answers [y] and [Y], and no others, lead to the
    deletion of the directory entries; every other answer, [yes]
    included, leads to the abort message. *)
Theorem setup_confirmation (w : W) :
  setup_stm32_project cwd script_file true w =
  match
    host_input "Do you want to delete this project and recreate it? (y/n): " w
  with
  | (Ok answer, w1) =>
      if bool_decide (answer = "y" ∨ answer = "Y") then
        (items ← query (host_iterdir cwd);
         delete_items items;;
         print "Deleted existing project content.";;
         setup_provision cwd script_file cwd None) w1
      else (Ok tt, host_print "Setup aborted." w1)
  | (Raise e, w1) => (Raise e, w1)
  end
  ∧ bool_decide ("yes" = "y" ∨ "yes" = "Y") = false.
Proof.
  split; [|done].
  unfold setup_stm32_project. unfold mbind at 1, Py_bind at 1.
  destruct (host_input _ w) as [[answer|e] w1]; [|done].
  destruct (String.eqb_spec (lower answer) "y") as [Hlow|Hlow].
  - apply lower_y in Hlow. by rewrite bool_decide_eq_true_2.
  - rewrite bool_decide_eq_false_2; [done|]. by rewrite <- lower_y.
Qed.

(** The branch of [setup] that deletes never reaches the end: the local
    variable [project_name] is read at line 195 without having been
    assigned. *)
Lemma setup_provision_unbound (project_path : path) (w w1 : W) :
  setup_tree_and_sources project_path w = (Ok tt, w1) →
  setup_provision cwd script_file project_path None w =
  (Raise (UnboundLocalError "project_name"), w1).
Proof.
  intros Htree. unfold setup_provision. unfold mbind at 1, Py_bind at 1.
  by rewrite Htree.
Qed.

Lemma setup_provision_raises (project_path : path) (w : W) :
  ∃ e w', setup_provision cwd script_file project_path None w = (Raise e, w').
Proof.
  destruct (setup_tree_and_sources project_path w) as [[[]|e] w1] eqn:Htree.
  - rewrite (setup_provision_unbound _ _ _ Htree). eauto.
  - unfold setup_provision. unfold mbind at 1, Py_bind at 1. rewrite Htree. eauto.
Qed.

(** C1 (what the code does instead). A run of [setup --delete_current]
    in which the operator confirms never completes: whatever the host
    does, the function raises. *)
Theorem setup_delete_current_confirmed_raises (answer : string) (w w1 : W) :
  host_input "Do you want to delete this project and recreate it? (y/n): " w
    = (Ok answer, w1) →
  lower answer = "y" →
  ∃ e w', setup_stm32_project cwd script_file true w = (Raise e, w').
Proof.
  intros Hinput Hlow. unfold setup_stm32_project.
  unfold mbind at 1, Py_bind at 1. rewrite Hinput, Hlow, String.eqb_refl.
  run_steps.
  destruct (host_iterdir cwd w1) as [items|e]; [|eauto].
  destruct (delete_items items w1) as [[[]|e] w2]; [|eauto].
  apply setup_provision_raises.
Qed.

(** What the edit does once the file has been read, and when it could
    not be read, on a console that can fail. *)
Lemma update_cross_compile_with_read_ok (console_print : string → Py W unit)
    (p : path) (new_path raw : string) (w : W) :
  host_read p w = Ok raw →
  update_cross_compile_with console_print p new_path w =
  match host_write p (patched new_path raw) w with
  | (Ok _, w') => (Ok true, w')
  | (Raise e, w') =>
      match console_print ("Error: " +:+ exn_str e) w' with
      | (Ok _, w'') => (Ok false, w'')
      | (Raise e', w'') => (Raise e', w'')
      end
  end.
Proof.
  intros Hread.
  unfold update_cross_compile_with, try_except, open_readlines,
    open_writelines, query, lift, patched, mbind, Py_bind, mret, Py_ret.
  rewrite Hread.
  destruct (first_key_line (readlines (universal_newlines raw)))
    as [Hnone|(pre & l & post & Hlines & Hpre & Hl)].
  - rewrite (scan_lines_all_none new_path _ Hnone). cbn [negb].
    destruct (host_write _ _ w) as [[[]|e] w']; [done|].
    by destruct (console_print _ w') as [[[]|e'] w''].
  - rewrite Hlines, (scan_lines_first new_path pre l post Hpre Hl).
    cbn [negb].
    destruct (host_write _ _ w) as [[[]|e] w']; [done|].
    by destruct (console_print _ w') as [[[]|e'] w''].
Qed.

Lemma update_cross_compile_with_read_fails
    (console_print : string → Py W unit) (p : path) (new_path : string)
    (e : exn) (w : W) :
  host_read p w = Raise e →
  update_cross_compile_with console_print p new_path w =
  match console_print ("Error: " +:+ exn_str e) w with
  | (Ok _, w') => (Ok false, w')
  | (Raise e', w') => (Raise e', w')
  end.
Proof.
  intros Hread.
  unfold update_cross_compile_with, try_except, open_readlines, query,
    mbind, Py_bind, mret, Py_ret.
  rewrite Hread. by destruct (console_print _ w) as [[[]|e'] w'].
Qed.

(** C8 (amended). No exception raised while the file is read or written
    leaves [update_cross_compile]: when the file cannot be read the error
    is printed and, the message once out, [False] is returned, the state
    being the one found but for the message (nothing was written); when
    the file was read, the one write decides, [True] if it succeeds and
    [False] with the error printed if it fails.  The one exception that
    does leave the function is an exception of that [print] itself.  The
    caller in [setup] drops the boolean: whenever the edit returns, with
    [True] or with [False], the call of lines 194-199 returns; and on a
    console that does not fail (where the definitions are those of the
    script above) the run goes on, after the directory tree and the
    sources, with the copy of the script from whatever state the edit
    left. *)
Theorem update_cross_compile_reports_file_errors
    (console_print : string → Py W unit) (p : path) (new_path : string)
    (w : W) :
  match host_read p w with
  | Raise e =>
      update_cross_compile_with console_print p new_path w =
      match console_print ("Error: " +:+ exn_str e) w with
      | (Ok _, w') => (Ok false, w')
      | (Raise e', w') => (Raise e', w')
      end
  | Ok raw =>
      ∃ text,
        match host_write p text w with
        | (Ok _, w') =>
            update_cross_compile_with console_print p new_path w = (Ok true, w')
        | (Raise e, w') =>
            update_cross_compile_with console_print p new_path w =
            match console_print ("Error: " +:+ exn_str e) w' with
            | (Ok _, w'') => (Ok false, w'')
            | (Raise e', w'') => (Raise e', w'')
            end
        end
  end ∧
  (∀ name,
     setup_patch_makefile_with cwd console_print (Some name) w =
     match
       update_cross_compile_with console_print
         (cwd </> name </> "stm32/micropython/ports/stm32/Makefile")
         (path_str
            (cwd </> name </>
             "stm32/arm_gcc_compiler/gcc-arm-none-eabi-10.3-2021.07/bin/arm-none-eabi-"))
         w
     with
     | (Ok _, w') => (Ok tt, w')
     | (Raise e, w') => (Raise e, w')
     end) ∧
  update_cross_compile_with print p new_path w =
    update_cross_compile p new_path w ∧
  (∀ name,
     setup_patch_makefile_with cwd print (Some name) w =
     setup_patch_makefile cwd (Some name) w) ∧
  ∀ project_path name,
    setup_provision cwd script_file project_path (Some name) w =
    match setup_tree_and_sources project_path w with
    | (Ok _, w1) =>
        setup_script_tasks_stlink script_file project_path
          (snd (update_cross_compile
                  (cwd </> name </> "stm32/micropython/ports/stm32/Makefile")
                  (path_str
                     (cwd </> name </>
                      "stm32/arm_gcc_compiler/gcc-arm-none-eabi-10.3-2021.07/bin/arm-none-eabi-"))
                  w1))
    | (Raise e, w1) => (Raise e, w1)
    end.
Proof.
  assert (Hbool : ∀ q v u, ∃ b u', update_cross_compile q v u = (Ok b, u')).
  { intros q v u. destruct (host_read q u) as [raw|e] eqn:Hread.
    - rewrite (update_cross_compile_read_ok q v raw u Hread).
      destruct (host_write _ _ u) as [[[]|e] u']; eauto.
    - rewrite (update_cross_compile_read_fails q v e u Hread). eauto. }
  split; [|split; [|split; [|split]]].
  - destruct (host_read p w) as [raw|e] eqn:Hread.
    + exists (patched new_path raw).
      rewrite (update_cross_compile_with_read_ok console_print p new_path raw
                 w Hread).
      by destruct (host_write _ _ w) as [[[]|e] w'].
    + by apply update_cross_compile_with_read_fails.
  - intros name. unfold setup_patch_makefile_with. run_steps.
    by destruct (update_cross_compile_with _ _ _ w) as [[b|e] w'].
  - reflexivity.
  - reflexivity.
  - intros project_path name. unfold setup_provision.
    unfold mbind at 1, Py_bind at 1.
    destruct (setup_tree_and_sources project_path w) as [[[]|e] w1]; [|done].
    unfold setup_patch_makefile. run_steps.
    destruct (Hbool (cwd </> name </> "stm32/micropython/ports/stm32/Makefile")
                (path_str
                   (cwd </> name </>
                    "stm32/arm_gcc_compiler/gcc-arm-none-eabi-10.3-2021.07/bin/arm-none-eabi-"))
                w1) as (b & w2 & Hedit).
    by rewrite Hedit.
Qed.

(** C2 (amended). With an empty command line (no argument at all) the
    program prints the help text and returns, exit status 0, the state
    being the one it found with the help printed.  With a first token that is neither an option
    nor one of the eight command names, the argument parser ends the
    process with exit status 2 after writing its usage error to standard
    error; nothing else happens to the state. *)
Theorem main_without_known_command (token : string) (rest : list string)
    (w : W) :
  is_option token = false →
  token ∉ subcommands →
  main cwd script_file help_text error_text [] w =
    (Returned, host_print (help_text None) w) ∧
  exit_code (fst (main cwd script_file help_text error_text [] w)) = 0%Z ∧
  main cwd script_file help_text error_text (token :: rest) w =
    (Exited 2,
     host_eprint (error_text ("argument command: invalid choice: " +:+ token)) w) ∧
  exit_code (fst (main cwd script_file help_text error_text (token :: rest) w))
    = 2%Z.
Proof.
  intros Hopt Hunknown.
  assert (Hmain : main cwd script_file help_text error_text (token :: rest) w =
            (Exited 2,
             host_eprint
               (error_text ("argument command: invalid choice: " +:+ token)) w)).
  { unfold main, parse_args. rewrite Hopt. by rewrite bool_decide_eq_false_2. }
  repeat split; [done|]. by rewrite Hmain.
Qed.

(** C7. A run of [setup] that completes has written the task descriptor:
    after the copy of the script, one write to [.vscode/tasks.json] under
    the project directory, followed only by two messages and the
    installation of the flashing utility.  The text written is JSON; it
    denotes a document with exactly four task records, labelled [Setup],
    [Compile], [Flash] and [Reset], whose commands call the script with
    [setup], [compile], [flash] and [reset], and of which [Flash] alone
    has a dependency, on [Compile]. *)
Theorem setup_writes_task_descriptor (w w' : W) :
  setup_stm32_project cwd script_file false w = (Ok tt, w') →
  ∃ name text doc w0 w1 w2 w3,
    host_copy script_file (cwd </> name </> "stm32" </> "setup.py") w0
      = (Ok tt, w1) ∧
    host_write (cwd </> name </> ".vscode" </> "tasks.json") text
      (host_print ("Setup script copied to " +:+
                   path_str (cwd </> name </> "stm32" </> "setup.py")) w1)
      = (Ok tt, w2) ∧
    host_run (split " " "brew install stlink") None
      (host_print ("VSCode tasks.json created at " +:+
                   path_str (cwd </> name </> ".vscode" </> "tasks.json")) w2)
      = (Ok tt, w3) ∧
    w' = host_print ("STM32 project setup completed at " +:+
                     path_str (cwd </> name)) w3 ∧
    JsonReader.json_loads text = Some doc ∧
    map (field "label") (task_records doc) =
      [Some "Setup"; Some "Compile"; Some "Flash"; Some "Reset"] ∧
    map (field "command") (task_records doc) =
      [Some "python3 stm32/setup.py setup";
       Some "python3 stm32/setup.py compile";
       Some "python3 stm32/setup.py flash";
       Some "python3 stm32/setup.py reset"] ∧
    map (field "dependsOn") (task_records doc) =
      [None; None; Some "Compile"; None].
Proof.
  unfold setup_stm32_project. unfold mbind at 1, Py_bind at 1.
  destruct (host_input _ w) as [[name|e] wa]; [|done].
  unfold mbind at 1, Py_bind at 1.
  destruct (host_mkdir _ wa) as [[[]|e] wb]; [|done].
  unfold setup_provision. unfold mbind at 1, Py_bind at 1.
  destruct (setup_tree_and_sources _ wb) as [[[]|e] wc]; [|done].
  unfold mbind at 1, Py_bind at 1.
  destruct (setup_patch_makefile _ _ wc) as [[[]|e] w0]; [|done].
  unfold setup_script_tasks_stlink, install_stlink, run_command. run_steps.
  destruct (host_copy _ _ w0) as [[[]|e] w1] eqn:Hcopy; [|done].
  destruct (host_write _ _ _) as [[[]|e] w2] eqn:Hwrite; [|done].
  destruct (host_run _ _ _) as [[[]|e] w3] eqn:Hrun; [|done].
  intros [= <-].
  exists name, (json_dumps 4 tasks_content), tasks_content, w0, w1, w2, w3.
  repeat split; done.
Qed.

End CommandClaims.

(** * Further properties of the script *)

(** ** The argument vector of a command *)

Section SplitFacts.

Lemma split_not_nil (sep : ascii) (s : string) : split sep s ≠ [].
Proof.
  destruct s as [|c s]; simpl; [done|].
  destruct (Ascii.eqb c sep); [done|]. by destruct (split sep s).
Qed.

Lemma split_no_sep (sep : ascii) (s : string) :
  Forall (λ field, has_char sep field = false) (split sep s).
Proof.
  induction s as [|c s IH]; simpl; [by repeat constructor|].
  destruct (Ascii.eqb c sep) eqn:E; [by constructor|].
  destruct (split sep s) as [|f fs]; [repeat constructor; simpl; by rewrite E|].
  inversion IH as [|? ? Hf Hfs]; subst. constructor; [|done].
  simpl. by rewrite E.
Qed.

Lemma concat_split (sep : ascii) (s : string) :
  String.concat (String sep "") (split sep s) = s.
Proof.
  induction s as [|c s IH]; simpl; [done|].
  pose proof (split_not_nil sep s) as Hne.
  destruct (Ascii.eqb c sep) eqn:E.
  - apply Ascii.eqb_eq in E as ->.
    destruct (split sep s) as [|f fs]; [done|].
    change (String.concat (String sep "") ("" :: f :: fs))
      with (String sep (String.concat (String sep "") (f :: fs))).
    by rewrite IH.
  - destruct (split sep s) as [|f [|g fs]]; [done| |].
    + change (String c f = String c s). by rewrite <- IH.
    + change (String c (String.concat (String sep "") (f :: g :: fs))
              = String c s).
      by rewrite IH.
Qed.

End SplitFacts.

Section MoreEditFacts.

Context {W : Type} `{Host W}.

(** X1. [run_command] starts one process, and its argument vector is the
    command cut at every single space: it is never empty, none of its
    arguments holds a space, and joined with spaces it is the command
    again (so an argument with a space in it cannot be passed). *)
Theorem run_command_argv (cmd : string) (dir : option path) (w : W) :
  ∃ program arguments,
    run_command cmd dir w = host_run (program :: arguments) dir w ∧
    Forall (λ argument, has_char " " argument = false) (program :: arguments) ∧
    String.concat " " (program :: arguments) = cmd.
Proof.
  pose proof (split_not_nil " " cmd) as Hne.
  pose proof (split_no_sep " " cmd) as Hno.
  pose proof (concat_split " " cmd) as Hjoin.
  unfold run_command. destruct (split " " cmd) as [|program arguments]; [done|].
  by exists program, arguments.
Qed.

(** X2. The loop of lines 37-41 never indexes out of range: run over
    [range(len(lines))] it returns, the list has as many lines as before,
    and the flag is set exactly when some line begins with
    [CROSS_COMPILE]. *)
Theorem scan_lines_in_range (new_path : string) (lines : list string) :
  ∃ lines' found,
    scan_lines new_path (seq 0 (length lines)) lines = Ok (lines', found) ∧
    length lines' = length lines ∧
    (found = true ↔
     Exists (λ line, startswith line "CROSS_COMPILE" = true) lines).
Proof.
  destruct (first_key_line lines) as [Hnone|(pre & l & post & -> & Hpre & Hl)].
  - exists lines, false. rewrite (scan_lines_all_none new_path lines Hnone).
    repeat split; [done|].
    intros Hex. apply Exists_exists in Hex as (line & Hin & Hline).
    rewrite Forall_forall in Hnone. specialize (Hnone line Hin).
    unfold no_key in Hnone. congruence.
  - exists (pre ++ cross_compile_line new_path :: post), true.
    rewrite (scan_lines_first new_path pre l post Hpre Hl).
    repeat split; [by rewrite !length_app|].
    intros _. apply Exists_app. right. by constructor.
Qed.

Lemma has_char_writelines_app (c : ascii) (a b : list string) :
  has_char c (writelines (a ++ b)) =
  has_char c (writelines a) || has_char c (writelines b).
Proof. by rewrite writelines_app, has_char_app. Qed.

(** The text written back holds a carriage return only if the value does. *)
Lemma patched_no_cr (new_path raw : string) :
  has_char CR new_path = false → has_char CR (patched new_path raw) = false.
Proof.
  intros Hcr.
  pose proof (universal_newlines_no_cr raw) as Hraw.
  assert (Hk : has_char CR (cross_compile_line new_path) = false)
    by (by apply has_char_cross_compile_line).
  destruct (first_key_line (readlines (universal_newlines raw)))
    as [Hnone|(pre & l & post & Hlines & Hpre & Hl)].
  - rewrite (patched_none new_path raw Hnone).
    by rewrite !has_char_app, Hraw, Hk.
  - rewrite (patched_found new_path raw pre l post Hlines Hpre Hl).
    rewrite <- (writelines_readlines (universal_newlines raw)), Hlines in Hraw.
    rewrite writelines_app, writelines_cons, !has_char_app in Hraw.
    apply orb_false_iff in Hraw as [Hcpre [_ Hcpost]%orb_false_iff].
    by rewrite !has_char_app, Hcpre, Hk, Hcpost.
Qed.

(** The lines of the text written back. *)
Lemma readlines_patched_found (new_path raw : string) (pre : list string)
    (l : string) (post : list string) :
  has_char LF new_path = false → has_char CR new_path = false →
  readlines (universal_newlines raw) = pre ++ l :: post →
  Forall no_key pre → startswith l "CROSS_COMPILE" = true →
  readlines (universal_newlines (patched new_path raw)) =
  pre ++ cross_compile_line new_path :: post.
Proof.
  intros Hlf Hcr Hlines Hpre Hl.
  rewrite (universal_newlines_id _ (patched_no_cr new_path raw Hcr)).
  rewrite (patched_found new_path raw pre l post Hlines Hpre Hl).
  pose proof (readlines_ok (universal_newlines raw)) as Hok.
  rewrite Hlines in Hok. apply lines_ok_split in Hok as [Hterm Hrest].
  rewrite <- writelines_cons, <- writelines_app.
  apply readlines_writelines, lines_ok_join; [done|].
  apply lines_ok_cons; [by apply terminated_cross_compile_line|].
  by apply lines_ok_tail in Hrest.
Qed.

Lemma readlines_patched_none (new_path raw : string) :
  has_char LF new_path = false → has_char CR new_path = false →
  Forall no_key (readlines (universal_newlines raw)) →
  readlines (universal_newlines (patched new_path raw)) =
  snoc_nl (readlines (universal_newlines raw)) ++ [cross_compile_line new_path].
Proof.
  intros Hlf Hcr Hnone.
  rewrite (universal_newlines_id _ (patched_no_cr new_path raw Hcr)).
  rewrite (patched_none new_path raw Hnone).
  change (nl +:+ cross_compile_line new_path)
    with (String LF (cross_compile_line new_path)).
  rewrite readlines_app_nl, readlines_snoc_nl. f_equal.
  pose proof (readlines_terminated (cross_compile_line new_path) ""
                (terminated_cross_compile_line new_path Hlf)) as Hk.
  by rewrite append_nil_r in Hk.
Qed.

Lemma length_snoc_nl (ls : list string) :
  length (snoc_nl ls) =
  match last ls with
  | Some l => if ends_with_lf l then S (length ls) else length ls
  | None => 1
  end.
Proof.
  induction ls as [|l [|l2 ls] IH]; [done| |].
  - simpl. by destruct (ends_with_lf l).
  - change (snoc_nl (l :: l2 :: ls)) with (l :: snoc_nl (l2 :: ls)).
    change (last (l :: l2 :: ls)) with (last (l2 :: ls)).
    cbn [length]. rewrite IH. destruct (last (l2 :: ls)) eqn:E.
    + by destruct (ends_with_lf _).
    + by apply last_None in E.
Qed.

(** X3. Whatever the file held, the edit sets the key: for a value without
    line break, the text [update_cross_compile] writes back, read again in
    text mode, has [CROSS_COMPILE = new_path] as its first line beginning
    with [CROSS_COMPILE]. *)
Theorem update_cross_compile_sets_key (p : path) (new_path raw : string)
    (w : W) :
  has_char LF new_path = false →
  has_char CR new_path = false →
  host_read p w = Ok raw →
  ∃ text pre post,
    readlines (universal_newlines text) =
      pre ++ cross_compile_line new_path :: post ∧
    Forall no_key pre ∧
    match host_write p text w with
    | (Ok _, w') => update_cross_compile p new_path w = (Ok true, w')
    | (Raise e, w') =>
        update_cross_compile p new_path w =
        (Ok false, host_print ("Error: " +:+ exn_str e) w')
    end.
Proof.
  intros Hlf Hcr Hread.
  destruct (first_key_line (readlines (universal_newlines raw)))
    as [Hnone|(pre & l & post & Hlines & Hpre & Hl)].
  - exists (patched new_path raw),
      (snoc_nl (readlines (universal_newlines raw))), [].
    split; [by apply readlines_patched_none|].
    split; [by apply no_key_snoc_nl|].
    rewrite (update_cross_compile_read_ok p new_path raw w Hread).
    by destruct (host_write _ _ w) as [[[]|e] w'].
  - exists (patched new_path raw), pre, post.
    split; [by apply (readlines_patched_found new_path raw pre l post)|].
    split; [done|].
    rewrite (update_cross_compile_read_ok p new_path raw w Hread).
    by destruct (host_write _ _ w) as [[[]|e] w'].
Qed.

(** X4. When no line begins with the key, the file gains one line if its
    last line had no terminator, and two lines (an empty one, then the
    key line) if it was empty or ended with a line break: for a value
    without line break, the lines of the text written back are the lines
    read, the last of them completed or followed by an empty line, and
    then the key line. *)
Theorem update_cross_compile_lines_added (p : path) (new_path raw : string)
    (w : W) :
  has_char LF new_path = false →
  has_char CR new_path = false →
  host_read p w = Ok raw →
  Forall no_key (readlines (universal_newlines raw)) →
  ∃ text,
    readlines (universal_newlines text) =
      snoc_nl (readlines (universal_newlines raw)) ++
      [cross_compile_line new_path] ∧
    length (readlines (universal_newlines text)) =
      match last (readlines (universal_newlines raw)) with
      | Some l =>
          if ends_with_lf l
          then 2 + length (readlines (universal_newlines raw))
          else 1 + length (readlines (universal_newlines raw))
      | None => 2
      end ∧
    match host_write p text w with
    | (Ok _, w') => update_cross_compile p new_path w = (Ok true, w')
    | (Raise e, w') =>
        update_cross_compile p new_path w =
        (Ok false, host_print ("Error: " +:+ exn_str e) w')
    end.
Proof.
  intros Hlf Hcr Hread Hnone. exists (patched new_path raw).
  rewrite (readlines_patched_none new_path raw Hlf Hcr Hnone).
  split; [done|]. split.
  - rewrite length_app, length_snoc_nl. cbn [length].
    destruct (last _); [destruct (ends_with_lf _)|]; lia.
  - rewrite (update_cross_compile_read_ok p new_path raw w Hread).
    by destruct (host_write _ _ w) as [[[]|e] w'].
Qed.

(** X5. The edit leaves a file with LF line endings only: for a value
    without carriage return, the text written back holds no carriage
    return, whatever line endings the file had. *)
Theorem update_cross_compile_writes_lf_only (p : path) (new_path raw : string)
    (w : W) :
  has_char CR new_path = false →
  host_read p w = Ok raw →
  ∃ text,
    has_char CR text = false ∧
    match host_write p text w with
    | (Ok _, w') => update_cross_compile p new_path w = (Ok true, w')
    | (Raise e, w') =>
        update_cross_compile p new_path w =
        (Ok false, host_print ("Error: " +:+ exn_str e) w')
    end.
Proof.
  intros Hcr Hread. exists (patched new_path raw).
  split; [by apply patched_no_cr|].
  rewrite (update_cross_compile_read_ok p new_path raw w Hread).
  by destruct (host_write _ _ w) as [[[]|e] w'].
Qed.


(** The loop over a list in two parts. *)
Lemma delete_items_app (first rest : list path) (w : W) :
  delete_items (first ++ rest) w =
  match delete_items first w with
  | (Ok _, w1) => delete_items rest w1
  | (Raise e, w1) => (Raise e, w1)
  end.
Proof.
  revert w. induction first as [|item first IH]; intros w; [done|].
  cbn [app delete_items]. unfold query.
  unfold mbind, Py_bind. fold (@delete_items W _).
  destruct (host_is_dir item w).
  - destruct (host_rmtree item w) as [[[]|e] w1]; [apply IH|done].
  - destruct (host_unlink item w) as [[[]|e] w1]; [apply IH|done].
Qed.

(** X6. The deletion loop stops at the first entry it cannot delete: when
    the entries before [item] have been deleted and the deletion of
    [item] -- [shutil.rmtree] if it is a directory, [unlink] if not --
    raises, the loop ends with that exception in the state the failed
    deletion left; the entries after [item] are not looked at. *)
Theorem delete_items_stops_at_first_failure (first : list path) (item : path)
    (rest : list path) (e : exn) (w w1 w2 : W) :
  delete_items first w = (Ok tt, w1) →
  (if host_is_dir item w1 then host_rmtree item w1 else host_unlink item w1)
    = (Raise e, w2) →
  delete_items (first ++ item :: rest) w = (Raise e, w2).
Proof.
  intros Hfirst Hitem. rewrite delete_items_app, Hfirst.
  cbn [delete_items]. unfold query. unfold mbind, Py_bind.
  fold (@delete_items W _).
  destruct (host_is_dir item w1); by rewrite Hitem.
Qed.

End MoreEditFacts.

(** ** The commands as a whole *)

Section DispatchFacts.

Context {W : Type} `{Host W}.
Variable cwd : path.
Variable script_file : path.

Lemma parse_subcommand_command (name : string) (flag : bool)
    (rest : list string) (args : namespace) :
  parse_subcommand name flag rest = Parsed args → command args = Some name.
Proof.
  revert flag. induction rest as [|token rest IH]; intros flag; simpl.
  - by intros [= <-].
  - destruct (_ || _); [done|]. destruct (_ && _); [apply IH|done].
Qed.

Lemma command_mapping_keys (args : namespace) (token : string) :
  is_Some (command_mapping cwd script_file args !! token) ↔ token ∈ subcommands.
Proof.
  unfold command_mapping. rewrite <- not_eq_None_Some.
  rewrite <- not_elem_of_list_to_map. cbn [fmap list_fmap fst].
  unfold subcommands. rewrite !elem_of_cons, !elem_of_nil.
  destruct (decide (token = "compiler")); [tauto|].
  destruct (decide (token = "get_mpy")); [tauto|].
  destruct (decide (token = "stlink")); [tauto|].
  destruct (decide (token = "compile")); [tauto|].
  destruct (decide (token = "flash")); [tauto|].
  destruct (decide (token = "reset")); [tauto|].
  destruct (decide (token = "clean")); [tauto|].
  destruct (decide (token = "setup")); tauto.
Qed.

Lemma command_mapping_setup (args : namespace) :
  command_mapping cwd script_file args !! "setup" =
  Some (setup_stm32_project cwd script_file (delete_current args)).
Proof.
  unfold command_mapping. apply elem_of_list_to_map; [compute_done|].
  repeat first [apply list_elem_of_here | apply list_elem_of_further].
Qed.

(** X7. The dispatch table and the parser agree: the table holds an action
    for exactly the eight command names the parser accepts, so once the
    command line is accepted, the help text of line 274 is printed only
    when the command line was empty; with a command token, an action is
    found and run. *)
Theorem main_dispatch_covers_parser (argv : list string) (args : namespace) :
  parse_args argv = Parsed args →
  (command args = None ↔ argv = []) ∧
  (∀ token, command args = Some token →
            is_Some (command_mapping cwd script_file args !! token)) ∧
  (∀ token, is_Some (command_mapping cwd script_file args !! token) ↔
            token ∈ subcommands).
Proof.
  intros Hparse. split; [|split].
  - destruct argv as [|token rest]; [by injection Hparse as <-|].
    split; [|done]. intros Hnone. exfalso. simpl in Hparse.
    destruct (is_option token); [by destruct (_ || _)|].
    destruct (bool_decide _); [|done].
    apply parse_subcommand_command in Hparse. congruence.
  - intros token Htoken. apply command_mapping_keys.
    destruct argv as [|first rest]; [by injection Hparse as <-|].
    simpl in Hparse. destruct (is_option first); [by destruct (_ || _)|].
    destruct (bool_decide _) eqn:Hin; [|done].
    apply bool_decide_eq_true in Hin.
    apply parse_subcommand_command in Hparse. congruence.
  - apply command_mapping_keys.
Qed.

Variable help_text : option string → string.
Variable error_text : string → string.

Lemma main_setup_delete_current (w : W) :
  main cwd script_file help_text error_text ["setup"; "--delete_current"] w =
  match setup_stm32_project cwd script_file true w with
  | (Ok _, w') => (Returned, w')
  | (Raise e, w') => (Uncaught e, w')
  end.
Proof.
  unfold main.
  change (parse_args ["setup"; "--delete_current"])
    with (Parsed (Namespace (Some "setup") true)).
  cbn [command mbind option_bind]. by rewrite command_mapping_setup.
Qed.

(** X10. Through [main], declining the prompt of [setup --delete_current]
    ends the process normally (exit status 0): the only effects are the
    prompt and the message [Setup aborted.]. *)
Theorem main_setup_declined (answer : string) (w w1 : W) :
  host_input "Do you want to delete this project and recreate it? (y/n): " w
    = (Ok answer, w1) →
  answer ≠ "y" → answer ≠ "Y" →
  main cwd script_file help_text error_text ["setup"; "--delete_current"] w =
    (Returned, host_print "Setup aborted." w1) ∧
  exit_code
    (fst (main cwd script_file help_text error_text
            ["setup"; "--delete_current"] w)) = 0%Z.
Proof.
  intros Hinput Hy HY.
  assert (Hmain : main cwd script_file help_text error_text
                    ["setup"; "--delete_current"] w =
                  (Returned, host_print "Setup aborted." w1)).
  { rewrite main_setup_delete_current.
    unfold setup_stm32_project. unfold mbind at 1, Py_bind at 1.
    rewrite Hinput.
    destruct (String.eqb_spec (lower answer) "y") as [Hlow|Hlow]; [|done].
    apply lower_y in Hlow as [?|?]; congruence. }
  split; [done|]. by rewrite Hmain.
Qed.

(** X11. Through [main], a confirmed [setup --delete_current] ends the
    process with an uncaught exception, exit status 1, whatever the host
    does. *)
Theorem main_setup_confirmed_exit_status (answer : string) (w w1 : W) :
  host_input "Do you want to delete this project and recreate it? (y/n): " w
    = (Ok answer, w1) →
  lower answer = "y" →
  (∃ e w',
     main cwd script_file help_text error_text ["setup"; "--delete_current"] w
     = (Uncaught e, w')) ∧
  exit_code
    (fst (main cwd script_file help_text error_text
            ["setup"; "--delete_current"] w)) = 1%Z.
Proof.
  intros Hinput Hlow.
  assert (Hrun : ∃ e w', setup_stm32_project cwd script_file true w = (Raise e, w')).
  { unfold setup_stm32_project. unfold mbind at 1, Py_bind at 1.
    rewrite Hinput, Hlow, String.eqb_refl.
    unfold query, print; unfold mbind, Py_bind, mret, Py_ret.
    destruct (host_iterdir cwd w1) as [items|e]; [|eauto].
    destruct (delete_items items w1) as [[[]|e] w2]; [|eauto].
    apply setup_provision_raises. }
  destruct Hrun as (e & w' & Hrun).
  rewrite main_setup_delete_current, Hrun. eauto.
Qed.

End DispatchFacts.

(** ** The commands on a host whose operations succeed *)

Section ObligingFacts.

Context {W : Type} `{Host W}.
Variable cwd : path.
Variable script_file : path.
Variable help_text : option string → string.
Variable error_text : string → string.
Hypothesis host_obliging : obliging W.

Lemma succeeds_bind {A B : Type} (m : Py W A) (f : A → Py W B) (w : W) :
  succeeds (m w) → (∀ a w', succeeds (f a w')) → succeeds ((m ≫= f) w).
Proof.
  intros (a & w' & Hm) Hf. unfold mbind, Py_bind. rewrite Hm. apply Hf.
Qed.

Lemma succeeds_ret {A : Type} (a : A) (w : W) :
  succeeds ((mret a : Py W A) w).
Proof. by exists a, w. Qed.

Lemma succeeds_print (text : string) (w : W) : succeeds (print text w).
Proof. by exists tt, (host_print text w). Qed.

Lemma succeeds_observe {A : Type} (observe : W → A) (w : W) :
  succeeds (query (λ w, Ok (observe w)) w).
Proof. by exists (observe w), w. Qed.

Lemma succeeds_run_command (cmd : string) (dir : option path) (w : W) :
  succeeds (run_command cmd dir w).
Proof. apply (obliging_run W host_obliging). Qed.

(** The edit of the build configuration returns on every host. *)
Lemma succeeds_update_cross_compile (p : path) (new_path : string) (w : W) :
  succeeds (update_cross_compile p new_path w).
Proof.
  destruct (host_read p w) as [raw|e] eqn:Hread.
  - rewrite (update_cross_compile_read_ok p new_path raw w Hread).
    destruct (host_write _ _ w) as [[[]|e] w']; by eexists _, _.
  - rewrite (update_cross_compile_read_fails p new_path e w Hread).
    by eexists _, _.
Qed.

Ltac succeed :=
  repeat first
    [ apply succeeds_bind; [|intros ? ?]
    | apply succeeds_ret
    | apply succeeds_print
    | apply succeeds_observe
    | apply succeeds_run_command
    | apply succeeds_update_cross_compile
    | apply (obliging_run W host_obliging)
    | apply (obliging_write W host_obliging)
    | apply (obliging_append W host_obliging)
    | apply (obliging_rmtree W host_obliging)
    | apply (obliging_unlink W host_obliging)
    | apply (obliging_mkdir W host_obliging)
    | apply (obliging_copy W host_obliging)
    | apply (obliging_copytree W host_obliging)
    | apply (obliging_input W host_obliging)
    | match goal with
      | |- succeeds ((if ?b then _ else _) _) => destruct b
      end ].

Lemma succeeds_install_compiler (p : path) (w : W) :
  succeeds (install_compiler p w).
Proof. unfold install_compiler, download_compiler. cbv zeta. succeed. Qed.

Lemma succeeds_install_stlink (w : W) : succeeds (install_stlink w).
Proof. unfold install_stlink. succeed. Qed.

Lemma succeeds_get_micropython (p : path) (w : W) :
  succeeds (get_micropython p w).
Proof. unfold get_micropython. cbv zeta. succeed. Qed.

Lemma succeeds_compile_firmware (w : W) : succeeds (compile_firmware cwd w).
Proof. unfold compile_firmware. cbv zeta. succeed. Qed.

Lemma succeeds_setup_tree_and_sources (project_path : path) (w : W) :
  succeeds (setup_tree_and_sources project_path w).
Proof.
  unfold setup_tree_and_sources. cbv zeta. succeed.
Qed.

Lemma succeeds_setup_provision (project_path : path) (name : string) (w : W) :
  succeeds (setup_provision cwd script_file project_path (Some name) w).
Proof.
  unfold setup_provision, setup_patch_makefile, setup_script_tasks_stlink,
    install_stlink, local.
  cbv zeta. succeed.
Qed.

Lemma succeeds_delete_items (items : list path) (w : W) :
  succeeds (delete_items items w).
Proof.
  revert w. induction items as [|item items IH]; intros w.
  - apply succeeds_ret.
  - cbn [delete_items]. succeed. apply IH.
Qed.

Lemma succeeds_setup_fresh (w : W) :
  succeeds (setup_stm32_project cwd script_file false w).
Proof.
  unfold setup_stm32_project. cbv zeta. succeed.
Qed.

Lemma parse_args_command (token : string) :
  token ∈ subcommands →
  parse_args [token] = Parsed (Namespace (Some token) false).
Proof.
  unfold subcommands. rewrite !elem_of_cons, elem_of_nil.
  intros [->|[->|[->|[->|[->|[->|[->|[->|[]]]]]]]]]; reflexivity.
Qed.

(** X8. On a host whose operations succeed, each of the eight commands,
    given without flag, runs to its end and the process exits with
    status 0 -- [setup] included: it asks for the project name and
    completes whether or not the build configuration could be read. *)
Theorem main_command_completes (token : string) (w : W) :
  token ∈ subcommands →
  (∃ w', main cwd script_file help_text error_text [token] w = (Returned, w')) ∧
  exit_code (fst (main cwd script_file help_text error_text [token] w)) = 0%Z.
Proof.
  intros Htoken.
  assert (Hmain : ∃ w', main cwd script_file help_text error_text [token] w
                        = (Returned, w')).
  { unfold main. rewrite (parse_args_command token Htoken).
    cbn [command mbind option_bind delete_current].
    assert (Haction : ∀ action,
              command_mapping cwd script_file (Namespace (Some token) false)
                !! token = Some action → succeeds (action w)).
    { intros action Hlookup. unfold command_mapping in Hlookup.
      apply elem_of_list_to_map_2 in Hlookup.
      rewrite !elem_of_cons, elem_of_nil in Hlookup.
      destruct Hlookup as [Heq|[Heq|[Heq|[Heq|[Heq|[Heq|[Heq|[Heq|[]]]]]]]]];
        injection Heq as _ ->.
      - apply succeeds_install_compiler.
      - apply succeeds_get_micropython.
      - apply succeeds_install_stlink.
      - apply succeeds_compile_firmware.
      - apply succeeds_run_command.
      - apply succeeds_run_command.
      - apply succeeds_run_command.
      - apply succeeds_setup_fresh. }
    destruct (proj2 (command_mapping_keys cwd script_file
                       (Namespace (Some token) false) token) Htoken)
      as [action Hlookup].
    unfold Py in *. rewrite Hlookup.
    destruct (Haction action Hlookup) as ([] & w' & ->). by exists w'. }
  split; [done|]. destruct Hmain as [w' ->]. done.
Qed.

(** X9. When the operator confirms and the steps up to the firmware
    source all return -- the entries are listed, each of them is deleted,
    the directory tree is made, the compiler installed and the source
    fetched -- [setup --delete_current] ends with exactly
    [UnboundLocalError] for [project_name], in the state those steps
    left: the edit of the build configuration, the copy of the script,
    the task descriptor and the flashing utility are not reached. *)
Theorem setup_delete_current_unbound_local (answer : string)
    (items : list path) (w w1 w2 w3 : W) :
  host_input "Do you want to delete this project and recreate it? (y/n): " w
    = (Ok answer, w1) →
  lower answer = "y" →
  host_iterdir cwd w1 = Ok items →
  delete_items items w1 = (Ok tt, w2) →
  setup_tree_and_sources cwd
    (host_print "Deleted existing project content." w2) = (Ok tt, w3) →
  setup_stm32_project cwd script_file true w =
  (Raise (UnboundLocalError "project_name"), w3).
Proof.
  intros Hinput Hlow Hiter Hdelete Htree. unfold setup_stm32_project.
  unfold mbind at 1, Py_bind at 1. rewrite Hinput, Hlow, String.eqb_refl.
  unfold query, print; unfold mbind, Py_bind, mret, Py_ret.
  rewrite Hiter, Hdelete. by apply setup_provision_unbound.
Qed.

End ObligingFacts.

(** ** Runs on the in-memory host *)

Import MemHost.

Lemma update_cross_compile_appends_witness :
  host_read makefile (with_makefile plain) = Ok plain ∧
  Forall no_key (readlines (universal_newlines plain)) ∧
  (has_char CR plain = false → universal_newlines plain = plain) ∧
  update_cross_compile makefile "gcc-" (with_makefile plain) =
  (Ok true,
   with_makefile ("A = 1" +:+ nl +:+ nl +:+ "CROSS_COMPILE = gcc-" +:+ nl)).
Proof.
  assert (H1 : host_read makefile (with_makefile plain) = Ok plain)
    by reflexivity.
  assert (H2 : Forall no_key (readlines (universal_newlines plain)))
    by repeat constructor.
  split; [exact H1|split; [exact H2|]].
  exact (update_cross_compile_appends makefile "gcc-" plain
           (with_makefile plain) H1 H2).
Defined.

(** C3 as stated fails: for the file [A = 1] (one terminated line, no key
    line) the content after the edit is not the original followed by the
    new line: two lines were added, an empty one and the key line.  And
    for a file without key line whose lines end in CR LF the original
    content is not even the beginning of the result. *)
Lemma update_cross_compile_appends_counterexample :
  Forall no_key (readlines (universal_newlines plain)) ∧
  host_read makefile
    (snd (update_cross_compile makefile "gcc-" (with_makefile plain)))
  = Ok ("A = 1" +:+ nl +:+ nl +:+ "CROSS_COMPILE = gcc-" +:+ nl) ∧
  host_read makefile
    (snd (update_cross_compile makefile "gcc-" (with_makefile plain)))
  ≠ Ok (plain +:+ cross_compile_line "gcc-") ∧
  readlines ("A = 1" +:+ nl +:+ nl +:+ "CROSS_COMPILE = gcc-" +:+ nl)
  = readlines plain ++ [nl; "CROSS_COMPILE = gcc-" +:+ nl] ∧
  ¬ ∃ added,
      host_read makefile
        (snd (update_cross_compile makefile "gcc-"
                (with_makefile ("A" +:+ String CR nl))))
      = Ok (("A" +:+ String CR nl) +:+ added).
Proof.
  split; [by repeat constructor|]. split; [reflexivity|].
  split; [by vm_compute|]. split; [reflexivity|].
  intros [added Heq]. vm_compute in Heq. discriminate Heq.
Qed.

Lemma update_cross_compile_rewrites_first_witness :
  host_read makefile (with_makefile two_keys) = Ok two_keys ∧
  readlines (universal_newlines two_keys) =
    ["A = 1" +:+ nl] ++ ("CROSS_COMPILE = old" +:+ nl) :: ["CROSS_COMPILE_2 = x"] ∧
  Forall no_key ["A = 1" +:+ nl] ∧
  startswith ("CROSS_COMPILE = old" +:+ nl) "CROSS_COMPILE" = true ∧
  universal_newlines two_keys =
    writelines ["A = 1" +:+ nl] +:+ ("CROSS_COMPILE = old" +:+ nl) +:+
    writelines ["CROSS_COMPILE_2 = x"] ∧
  (has_char CR two_keys = false → universal_newlines two_keys = two_keys) ∧
  update_cross_compile makefile "gcc-" (with_makefile two_keys) =
  (Ok true,
   with_makefile ("A = 1" +:+ nl +:+ "CROSS_COMPILE = gcc-" +:+ nl +:+
                  "CROSS_COMPILE_2 = x")).
Proof.
  assert (H1 : host_read makefile (with_makefile two_keys) = Ok two_keys)
    by reflexivity.
  assert (H2 : readlines (universal_newlines two_keys) =
               ["A = 1" +:+ nl] ++ ("CROSS_COMPILE = old" +:+ nl)
                 :: ["CROSS_COMPILE_2 = x"]) by reflexivity.
  assert (H3 : Forall no_key ["A = 1" +:+ nl]) by repeat constructor.
  assert (H4 : startswith ("CROSS_COMPILE = old" +:+ nl) "CROSS_COMPILE" = true)
    by reflexivity.
  split; [exact H1|]. split; [exact H2|]. split; [exact H3|].
  split; [exact H4|].
  exact (update_cross_compile_rewrites_first makefile "gcc-" two_keys
           ["A = 1" +:+ nl] ("CROSS_COMPILE = old" +:+ nl)
           ["CROSS_COMPILE_2 = x"] (with_makefile two_keys) H1 H2 H3 H4).
Defined.

(** C4 as stated fails: in a file whose lines end in CR LF the line
    before the key line does not come out unchanged.  The result is not
    the original with one stretch replaced by the new key line. *)
Lemma update_cross_compile_rewrites_first_counterexample :
  host_read makefile (with_makefile crlf) = Ok crlf ∧
  host_read makefile
    (snd (update_cross_compile makefile "gcc-" (with_makefile crlf)))
  = Ok ("A" +:+ nl +:+ "CROSS_COMPILE = gcc-" +:+ nl) ∧
  ¬ ∃ before line after,
      crlf = before +:+ line +:+ after ∧
      host_read makefile
        (snd (update_cross_compile makefile "gcc-" (with_makefile crlf)))
      = Ok (before +:+ cross_compile_line "gcc-" +:+ after).
Proof.
  split; [reflexivity|]. split; [reflexivity|].
  intros (before & line & after & Horig & Hnew).
  destruct before as [|c1 [|c2 before]];
    vm_compute in Hnew; vm_compute in Horig; try discriminate Hnew.
  injection Horig as _ Hcr _. injection Hnew as _ Hlf _.
  rewrite <- Hcr in Hlf. discriminate Hlf.
Qed.

Lemma update_cross_compile_idempotent_witness :
  has_char LF "gcc-" = false ∧
  has_char CR "gcc-" = false ∧
  host_read makefile (with_makefile two_keys) = Ok two_keys ∧
  stores makefile (with_makefile two_keys) ∧
  (∀ content w',
     host_write makefile content (with_makefile two_keys) = (Ok tt, w') →
     stores makefile w') ∧
  ∃ w1 w2,
    update_cross_compile makefile "gcc-" (with_makefile two_keys) = (Ok true, w1) ∧
    update_cross_compile makefile "gcc-" w1 = (Ok true, w2) ∧
    host_read makefile w2 = host_read makefile w1.
Proof.
  assert (H3 : host_read makefile (with_makefile two_keys) = Ok two_keys)
    by reflexivity.
  assert (H4 : stores makefile (with_makefile two_keys)).
  { intros content. eexists. split; reflexivity. }
  assert (H5 : ∀ content w',
            host_write makefile content (with_makefile two_keys) = (Ok tt, w') →
            stores makefile w').
  { intros content w' [= <-] content'. eexists. split; reflexivity. }
  split; [reflexivity|]. split; [reflexivity|]. split; [exact H3|].
  split; [exact H4|]. split; [exact H5|].
  exact (update_cross_compile_idempotent makefile "gcc-" two_keys
           (with_makefile two_keys) eq_refl eq_refl H3 H4 H5).
Defined.

(** C9 as stated fails: with a value that holds a line break the second
    application finds only the first part of the value on the key line
    and writes the whole value again before the rest. *)
Lemma update_cross_compile_idempotent_counterexample :
  host_read makefile
    (snd (update_cross_compile makefile two_lines (with_makefile two_keys)))
  = Ok ("A = 1" +:+ nl +:+ "CROSS_COMPILE = a" +:+ nl +:+ "b" +:+ nl +:+
        "CROSS_COMPILE_2 = x") ∧
  host_read makefile
    (snd (update_cross_compile makefile two_lines
            (snd (update_cross_compile makefile two_lines
                    (with_makefile two_keys)))))
  = Ok ("A = 1" +:+ nl +:+ "CROSS_COMPILE = a" +:+ nl +:+ "b" +:+ nl +:+
        "b" +:+ nl +:+ "CROSS_COMPILE_2 = x") ∧
  host_read makefile
    (snd (update_cross_compile makefile two_lines
            (snd (update_cross_compile makefile two_lines
                    (with_makefile two_keys)))))
  ≠ host_read makefile
      (snd (update_cross_compile makefile two_lines (with_makefile two_keys))).
Proof. split; [reflexivity|]. split; [reflexivity|]. by vm_compute. Qed.

Lemma install_compiler_present_witness :
  host_exists (compiler_dir </> "gcc-arm-none-eabi-10.3-2021.07") installed
    = true ∧
  install_compiler compiler_dir installed =
  (Ok tt, host_print "Compiler already exists" installed).
Proof.
  split; [reflexivity|].
  exact (install_compiler_present compiler_dir installed eq_refl).
Defined.

Lemma setup_declined_witness :
  host_input "Do you want to delete this project and recreate it? (y/n): "
    (world ["yes"] micropython)
  = (Ok "yes",
     host_print "Do you want to delete this project and recreate it? (y/n): "
       (world [] micropython)) ∧
  "yes" ≠ "y" ∧ "yes" ≠ "Y" ∧
  setup_stm32_project cwd script_file true (world ["yes"] micropython) =
  (Ok tt,
   host_print "Setup aborted."
     (host_print "Do you want to delete this project and recreate it? (y/n): "
        (world [] micropython))).
Proof.
  assert (H1 : host_input
                 "Do you want to delete this project and recreate it? (y/n): "
                 (world ["yes"] micropython)
               = (Ok "yes",
                  host_print
                    "Do you want to delete this project and recreate it? (y/n): "
                    (world [] micropython))) by reflexivity.
  assert (H2 : "yes" ≠ "y") by discriminate.
  assert (H3 : "yes" ≠ "Y") by discriminate.
  split; [exact H1|]. split; [exact H2|]. split; [exact H3|].
  exact (setup_declined cwd script_file "yes" _ _ H1 H2 H3).
Defined.

Lemma setup_delete_current_confirmed_raises_witness :
  host_input "Do you want to delete this project and recreate it? (y/n): "
    (world ["Y"] micropython)
  = (Ok "Y",
     host_print "Do you want to delete this project and recreate it? (y/n): "
       (world [] micropython)) ∧
  lower "Y" = "y" ∧
  ∃ e w',
    setup_stm32_project cwd script_file true (world ["Y"] micropython) =
    (Raise e, w').
Proof.
  assert (H1 : host_input
                 "Do you want to delete this project and recreate it? (y/n): "
                 (world ["Y"] micropython)
               = (Ok "Y",
                  host_print
                    "Do you want to delete this project and recreate it? (y/n): "
                    (world [] micropython))) by reflexivity.
  split; [exact H1|]. split; [reflexivity|].
  exact (setup_delete_current_confirmed_raises cwd script_file "Y" _ _ H1 eq_refl).
Defined.

(** C1 at a concrete input: the operator confirms in a directory holding
    an older project.  The old entries are deleted, the tree is made, the
    compiler and the firmware source are fetched; then the run stops with
    [UnboundLocalError] for [project_name]: the script is not copied, no
    task descriptor is written and the flashing utility is not installed. *)
Example setup_delete_current_run :
  fst (setup_stm32_project cwd script_file true (world ["y"] micropython))
  = Raise (UnboundLocalError "project_name") ∧
  stdout (snd (setup_stm32_project cwd script_file true (world ["y"] micropython)))
  = ["Do you want to delete this project and recreate it? (y/n): ";
     "Deleted existing project content."] ∧
  host_exists (cwd </> "notes.txt")
    (snd (setup_stm32_project cwd script_file true (world ["y"] micropython)))
  = false ∧
  host_exists (cwd </> "stm32/micropython/ports/stm32/Makefile")
    (snd (setup_stm32_project cwd script_file true (world ["y"] micropython)))
  = true ∧
  host_exists (cwd </> "stm32" </> "setup.py")
    (snd (setup_stm32_project cwd script_file true (world ["y"] micropython)))
  = false ∧
  host_exists (cwd </> ".vscode" </> "tasks.json")
    (snd (setup_stm32_project cwd script_file true (world ["y"] micropython)))
  = false ∧
  map (λ process, List.hd "" process.1)
    (spawned (snd (setup_stm32_project cwd script_file true
                     (world ["y"] micropython))))
  = ["curl"; "tar"; "git"; "git"; "git"; "mkdir"].
Proof. repeat split; by vm_compute. Qed.

Lemma main_without_known_command_witness :
  is_option "deploy" = false ∧
  ("deploy" ∉ subcommands) ∧
  main cwd script_file help_text error_text [] (world [] micropython) =
    (Returned, host_print (help_text None) (world [] micropython)) ∧
  exit_code
    (fst (main cwd script_file help_text error_text [] (world [] micropython)))
    = 0%Z ∧
  main cwd script_file help_text error_text ["deploy"] (world [] micropython) =
    (Exited 2,
     host_eprint (error_text "argument command: invalid choice: deploy")
       (world [] micropython)) ∧
  exit_code
    (fst (main cwd script_file help_text error_text ["deploy"]
            (world [] micropython)))
    = 2%Z.
Proof.
  assert (H1 : is_option "deploy" = false) by reflexivity.
  assert (H2 : "deploy" ∉ subcommands) by compute_done.
  split; [exact H1|]. split; [exact H2|].
  exact (main_without_known_command cwd script_file help_text error_text
           "deploy" [] (world [] micropython) H1 H2).
Defined.

(** C2 as stated fails: with the unknown command token [deploy] the
    process ends with exit status 2, not 0. *)
Lemma main_unknown_command_counterexample :
  ("deploy" ∉ subcommands) ∧
  exit_code
    (fst (main cwd script_file help_text error_text ["deploy"]
            (world [] micropython))) = 2%Z ∧
  exit_code
    (fst (main cwd script_file help_text error_text ["deploy"]
            (world [] micropython))) ≠ 0%Z.
Proof.
  split; [compute_done|]. split; [reflexivity|]. by vm_compute.
Qed.

Lemma setup_writes_task_descriptor_witness :
  setup_stm32_project cwd script_file false (world ["blinky"] micropython) =
  (Ok tt,
   snd (setup_stm32_project cwd script_file false (world ["blinky"] micropython)))
  ∧
  host_read (cwd </> "blinky" </> ".vscode" </> "tasks.json")
    (snd (setup_stm32_project cwd script_file false
            (world ["blinky"] micropython)))
  = Ok (json_dumps 4 tasks_content) ∧
  ∃ name text doc w0 w1 w2 w3,
    host_copy script_file (cwd </> name </> "stm32" </> "setup.py") w0
      = (Ok tt, w1) ∧
    host_write (cwd </> name </> ".vscode" </> "tasks.json") text
      (host_print ("Setup script copied to " +:+
                   path_str (cwd </> name </> "stm32" </> "setup.py")) w1)
      = (Ok tt, w2) ∧
    host_run (split " " "brew install stlink") None
      (host_print ("VSCode tasks.json created at " +:+
                   path_str (cwd </> name </> ".vscode" </> "tasks.json")) w2)
      = (Ok tt, w3) ∧
    snd (setup_stm32_project cwd script_file false
           (world ["blinky"] micropython))
    = host_print ("STM32 project setup completed at " +:+
                  path_str (cwd </> name)) w3 ∧
    JsonReader.json_loads text = Some doc ∧
    map (field "label") (task_records doc) =
      [Some "Setup"; Some "Compile"; Some "Flash"; Some "Reset"] ∧
    map (field "command") (task_records doc) =
      [Some "python3 stm32/setup.py setup";
       Some "python3 stm32/setup.py compile";
       Some "python3 stm32/setup.py flash";
       Some "python3 stm32/setup.py reset"] ∧
    map (field "dependsOn") (task_records doc) =
      [None; None; Some "Compile"; None].
Proof.
  assert (H0 : fst (setup_stm32_project cwd script_file false
                      (world ["blinky"] micropython)) = Ok tt)
    by (vm_compute; reflexivity).
  assert (H1 : setup_stm32_project cwd script_file false
                 (world ["blinky"] micropython) =
               (Ok tt,
                snd (setup_stm32_project cwd script_file false
                       (world ["blinky"] micropython)))).
  { rewrite <- H0. apply surjective_pairing. }
  split; [exact H1|]. split; [vm_compute; reflexivity|].
  exact (setup_writes_task_descriptor cwd script_file _ _ H1).
Defined.

(** C8 at a concrete input: the firmware repository comes without the
    build configuration, the edit fails and prints its error, and the run
    of [setup] goes on to the end. *)
Example setup_continues_after_failed_edit :
  fst (setup_stm32_project cwd script_file false
         (world ["blinky"] (firmware [])))
  = Ok tt ∧
  stdout (snd (setup_stm32_project cwd script_file false
                 (world ["blinky"] (firmware []))))
  = ["Enter the name of your new STM32 project: ";
     "Error: No such file or directory";
     "Setup script copied to work/blinky/stm32/setup.py";
     "VSCode tasks.json created at work/blinky/.vscode/tasks.json";
     "STM32 project setup completed at work/blinky"].
Proof. split; by vm_compute. Qed.


(** C8 as stated fails: the build configuration is missing and standard
    output is on a full device.  The read raises, the handler prints the
    error, that [print] raises in turn, and its exception leaves the
    function: no boolean is returned. *)
Lemma update_cross_compile_print_fails_counterexample :
  host_read makefile (world [] micropython)
  = Raise (OSError "No such file or directory") ∧
  update_cross_compile_with full_stdout makefile "gcc-" (world [] micropython)
  = (Raise (OSError "No space left on device"), world [] micropython) ∧
  ∀ b w',
    update_cross_compile_with full_stdout makefile "gcc-"
      (world [] micropython) ≠ (Ok b, w').
Proof.
  split; [reflexivity|].
  assert (Hrun : update_cross_compile_with full_stdout makefile "gcc-"
                   (world [] micropython)
                 = (Raise (OSError "No space left on device"),
                    world [] micropython)) by reflexivity.
  split; [exact Hrun|]. intros b w'. rewrite Hrun. discriminate.
Qed.

(** ** Further runs

    The further properties, on the in-memory host and on the recording
    host. *)

Lemma update_cross_compile_sets_key_witness :
  has_char LF "gcc-" = false ∧
  has_char CR "gcc-" = false ∧
  host_read makefile (with_makefile crlf) = Ok crlf ∧
  ∃ text pre post,
    readlines (universal_newlines text) =
      pre ++ cross_compile_line "gcc-" :: post ∧
    Forall no_key pre ∧
    match host_write makefile text (with_makefile crlf) with
    | (Ok _, w') =>
        update_cross_compile makefile "gcc-" (with_makefile crlf) = (Ok true, w')
    | (Raise e, w') =>
        update_cross_compile makefile "gcc-" (with_makefile crlf) =
        (Ok false, host_print ("Error: " +:+ exn_str e) w')
    end.
Proof.
  assert (H3 : host_read makefile (with_makefile crlf) = Ok crlf)
    by reflexivity.
  split; [reflexivity|]. split; [reflexivity|]. split; [exact H3|].
  exact (update_cross_compile_sets_key makefile "gcc-" crlf
           (with_makefile crlf) eq_refl eq_refl H3).
Defined.

Lemma update_cross_compile_lines_added_witness :
  has_char LF "gcc-" = false ∧
  has_char CR "gcc-" = false ∧
  host_read makefile (with_makefile plain) = Ok plain ∧
  Forall no_key (readlines (universal_newlines plain)) ∧
  ∃ text,
    readlines (universal_newlines text) =
      snoc_nl (readlines (universal_newlines plain)) ++
      [cross_compile_line "gcc-"] ∧
    length (readlines (universal_newlines text)) =
      match last (readlines (universal_newlines plain)) with
      | Some l =>
          if ends_with_lf l
          then 2 + length (readlines (universal_newlines plain))
          else 1 + length (readlines (universal_newlines plain))
      | None => 2
      end ∧
    match host_write makefile text (with_makefile plain) with
    | (Ok _, w') =>
        update_cross_compile makefile "gcc-" (with_makefile plain) = (Ok true, w')
    | (Raise e, w') =>
        update_cross_compile makefile "gcc-" (with_makefile plain) =
        (Ok false, host_print ("Error: " +:+ exn_str e) w')
    end.
Proof.
  assert (H3 : host_read makefile (with_makefile plain) = Ok plain)
    by reflexivity.
  assert (H4 : Forall no_key (readlines (universal_newlines plain)))
    by repeat constructor.
  split; [reflexivity|]. split; [reflexivity|]. split; [exact H3|].
  split; [exact H4|].
  exact (update_cross_compile_lines_added makefile "gcc-" plain
           (with_makefile plain) eq_refl eq_refl H3 H4).
Defined.

Lemma update_cross_compile_writes_lf_only_witness :
  has_char CR "gcc-" = false ∧
  host_read makefile (with_makefile crlf) = Ok crlf ∧
  ∃ text,
    has_char CR text = false ∧
    match host_write makefile text (with_makefile crlf) with
    | (Ok _, w') =>
        update_cross_compile makefile "gcc-" (with_makefile crlf) = (Ok true, w')
    | (Raise e, w') =>
        update_cross_compile makefile "gcc-" (with_makefile crlf) =
        (Ok false, host_print ("Error: " +:+ exn_str e) w')
    end.
Proof.
  assert (H2 : host_read makefile (with_makefile crlf) = Ok crlf)
    by reflexivity.
  split; [reflexivity|]. split; [exact H2|].
  exact (update_cross_compile_writes_lf_only makefile "gcc-" crlf
           (with_makefile crlf) eq_refl H2).
Defined.

Lemma main_dispatch_covers_parser_witness :
  parse_args ["setup"; "--delete_current"] =
    Parsed (Namespace (Some "setup") true) ∧
  (command (Namespace (Some "setup") true) = None ↔
   ["setup"; "--delete_current"] = []) ∧
  (∀ token, command (Namespace (Some "setup") true) = Some token →
            is_Some (command_mapping (W := state) cwd script_file
                       (Namespace (Some "setup") true) !! token)) ∧
  (∀ token, is_Some (command_mapping (W := state) cwd script_file
                       (Namespace (Some "setup") true) !! token) ↔
            token ∈ subcommands).
Proof.
  split; [reflexivity|].
  exact (main_dispatch_covers_parser cwd script_file
           ["setup"; "--delete_current"] (Namespace (Some "setup") true)
           eq_refl).
Defined.

Lemma main_setup_declined_witness :
  host_input "Do you want to delete this project and recreate it? (y/n): "
    (world ["n"] micropython)
  = (Ok "n",
     host_print "Do you want to delete this project and recreate it? (y/n): "
       (world [] micropython)) ∧
  "n" ≠ "y" ∧ "n" ≠ "Y" ∧
  main cwd script_file help_text error_text ["setup"; "--delete_current"]
    (world ["n"] micropython) =
    (Returned,
     host_print "Setup aborted."
       (host_print "Do you want to delete this project and recreate it? (y/n): "
          (world [] micropython))) ∧
  exit_code
    (fst (main cwd script_file help_text error_text
            ["setup"; "--delete_current"] (world ["n"] micropython))) = 0%Z.
Proof.
  assert (H1 : host_input
                 "Do you want to delete this project and recreate it? (y/n): "
                 (world ["n"] micropython)
               = (Ok "n",
                  host_print
                    "Do you want to delete this project and recreate it? (y/n): "
                    (world [] micropython))) by reflexivity.
  assert (H2 : "n" ≠ "y") by discriminate.
  assert (H3 : "n" ≠ "Y") by discriminate.
  split; [exact H1|]. split; [exact H2|]. split; [exact H3|].
  exact (main_setup_declined cwd script_file help_text error_text "n" _ _
           H1 H2 H3).
Defined.

Lemma main_setup_confirmed_exit_status_witness :
  host_input "Do you want to delete this project and recreate it? (y/n): "
    (world ["y"] micropython)
  = (Ok "y",
     host_print "Do you want to delete this project and recreate it? (y/n): "
       (world [] micropython)) ∧
  lower "y" = "y" ∧
  (∃ e w',
     main cwd script_file help_text error_text ["setup"; "--delete_current"]
       (world ["y"] micropython) = (Uncaught e, w')) ∧
  exit_code
    (fst (main cwd script_file help_text error_text
            ["setup"; "--delete_current"] (world ["y"] micropython))) = 1%Z.
Proof.
  assert (H1 : host_input
                 "Do you want to delete this project and recreate it? (y/n): "
                 (world ["y"] micropython)
               = (Ok "y",
                  host_print
                    "Do you want to delete this project and recreate it? (y/n): "
                    (world [] micropython))) by reflexivity.
  split; [exact H1|]. split; [reflexivity|].
  exact (main_setup_confirmed_exit_status cwd script_file help_text error_text
           "y" _ _ H1 eq_refl).
Defined.

Lemma main_command_completes_witness :
  obliging Recorder.state ∧
  "compile" ∈ subcommands ∧
  (∃ w',
     main cwd script_file help_text error_text ["compile"]
       (Recorder.operator []) = (Returned, w')) ∧
  exit_code
    (fst (main cwd script_file help_text error_text ["compile"]
            (Recorder.operator []))) = 0%Z.
Proof.
  assert (H1 : obliging Recorder.state)
    by (constructor; intros; by eexists _, _ || by eexists).
  assert (H2 : "compile" ∈ subcommands) by compute_done.
  split; [exact H1|]. split; [exact H2|].
  exact (main_command_completes cwd script_file help_text error_text H1
           "compile" (Recorder.operator []) H2).
Defined.

Lemma setup_delete_current_unbound_local_witness :
  host_input "Do you want to delete this project and recreate it? (y/n): "
    (world ["y"] micropython)
  = (Ok "y",
     host_print "Do you want to delete this project and recreate it? (y/n): "
       (world [] micropython)) ∧
  lower "y" = "y" ∧
  host_iterdir cwd
    (host_print "Do you want to delete this project and recreate it? (y/n): "
       (world [] micropython))
  = Ok [cwd </> "notes.txt"; cwd </> "old"] ∧
  delete_items [cwd </> "notes.txt"; cwd </> "old"]
    (host_print "Do you want to delete this project and recreate it? (y/n): "
       (world [] micropython))
  = (Ok tt, after_deletion) ∧
  setup_tree_and_sources cwd
    (host_print "Deleted existing project content." after_deletion)
  = (Ok tt,
     snd (setup_tree_and_sources cwd
            (host_print "Deleted existing project content." after_deletion)))
  ∧
  setup_stm32_project cwd script_file true (world ["y"] micropython) =
  (Raise (UnboundLocalError "project_name"),
   snd (setup_tree_and_sources cwd
          (host_print "Deleted existing project content." after_deletion))).
Proof.
  assert (H1 : host_input
                 "Do you want to delete this project and recreate it? (y/n): "
                 (world ["y"] micropython)
               = (Ok "y",
                  host_print
                    "Do you want to delete this project and recreate it? (y/n): "
                    (world [] micropython))) by reflexivity.
  assert (H3 : host_iterdir cwd
                 (host_print
                    "Do you want to delete this project and recreate it? (y/n): "
                    (world [] micropython))
               = Ok [cwd </> "notes.txt"; cwd </> "old"])
    by (vm_compute; reflexivity).
  assert (H4 : delete_items [cwd </> "notes.txt"; cwd </> "old"]
                 (host_print
                    "Do you want to delete this project and recreate it? (y/n): "
                    (world [] micropython))
               = (Ok tt, after_deletion)) by (vm_compute; reflexivity).
  assert (H5a : fst (setup_tree_and_sources cwd
                       (host_print "Deleted existing project content."
                          after_deletion)) = Ok tt)
    by (vm_compute; reflexivity).
  assert (H5 : setup_tree_and_sources cwd
                 (host_print "Deleted existing project content." after_deletion)
               = (Ok tt,
                  snd (setup_tree_and_sources cwd
                         (host_print "Deleted existing project content."
                            after_deletion)))).
  { rewrite <- H5a. apply surjective_pairing. }
  split; [exact H1|]. split; [reflexivity|]. split; [exact H3|].
  split; [exact H4|]. split; [exact H5|].
  exact (setup_delete_current_unbound_local cwd script_file "y" _ _ _ _ _
           H1 eq_refl H3 H4 H5).
Defined.


Lemma delete_items_stops_at_first_failure_witness :
  delete_items [cwd </> "notes.txt"] (world [] micropython)
  = (Ok tt, without_notes) ∧
  (if host_is_dir (cwd </> "ghost") without_notes
   then host_rmtree (cwd </> "ghost") without_notes
   else host_unlink (cwd </> "ghost") without_notes)
  = (Raise (OSError "No such file or directory"), without_notes) ∧
  delete_items ([cwd </> "notes.txt"] ++ (cwd </> "ghost") :: [cwd </> "old"])
    (world [] micropython)
  = (Raise (OSError "No such file or directory"), without_notes) ∧
  host_exists (cwd </> "old" </> "main.c") without_notes = true.
Proof.
  assert (H1 : delete_items [cwd </> "notes.txt"] (world [] micropython)
               = (Ok tt, without_notes)) by (vm_compute; reflexivity).
  assert (H2 : (if host_is_dir (cwd </> "ghost") without_notes
                then host_rmtree (cwd </> "ghost") without_notes
                else host_unlink (cwd </> "ghost") without_notes)
               = (Raise (OSError "No such file or directory"), without_notes))
    by reflexivity.
  split; [exact H1|]. split; [exact H2|].
  split; [|reflexivity].
  exact (delete_items_stops_at_first_failure [cwd </> "notes.txt"]
           (cwd </> "ghost") [cwd </> "old"] _ _ _ _ H1 H2).
Defined.
